(** * Inventory admin page: a shallow embedding of
      [frontend/app/dashboard/admin/inventory/page.tsx]

    The page is a React component: a record of state cells and a handful of
    event handlers that read the cells, talk to the browser (notifications,
    navigation, session storage) and to the backend (axios), and write the
    cells back.  The embedding keeps that shape:

    - [Js]: the pieces of the JavaScript runtime the handlers rely on:
      strings as sequences of UTF-16 code units, [trim], [replace], [split],
      truthiness, and [Number] applied to a string, whose result is an
      IEEE 754 binary64 value (the Standard Library's [spec_float]);
    - [Page]: the data model, the component state, a state-and-trace monad
      for the effects, and the handlers [getImageUrl], [fetchInventory],
      [handleImageChange], [handleSubmit], [handleEdit], [handleDelete] and
      [resetForm];
    - the properties of the handlers. *)

From Stdlib Require Import List String Ascii Bool ZArith NArith Lia.
From Stdlib Require Import Floats.SpecFloat.
Import ListNotations.

Set Implicit Arguments.

(* ===================================================================== *)
(** * The JavaScript runtime used by the page                            *)
(* ===================================================================== *)

Module Js.

Local Open Scope N_scope.

(** A JavaScript string is a sequence of UTF-16 code units. *)
Definition code_unit := N.
Definition jsstring := list code_unit.

(** String literals of the source, written as Rocq strings. *)
Definition js (s : string) : jsstring :=
  map N_of_ascii (list_ascii_of_string s).

Definition ch (a : ascii) : code_unit := N_of_ascii a.

(** [!s] on a string: only the empty string is falsy. *)
Definition truthy (s : jsstring) : bool :=
  match s with
  | [] => false
  | _ :: _ => true
  end.

(** A value of type [string | undefined | null]. *)
Inductive nullable (A : Type) : Type :=
| Undefined : nullable A
| Null : nullable A
| Defined : A -> nullable A.
Arguments Undefined {A}.
Arguments Null {A}.
Arguments Defined {A} _.

(** ** White space

    [WhiteSpace] and [LineTerminator] of ECMA-262: what [trim] strips and
    what [Number] skips around a numeric literal. *)
Definition is_white_space (c : code_unit) : bool :=
  (c =? 9) || (c =? 10) || (c =? 11) || (c =? 12) || (c =? 13) ||
  (c =? 32) || (c =? 160) || (c =? 5760) ||
  ((8192 <=? c) && (c <=? 8202)) ||
  (c =? 8232) || (c =? 8233) || (c =? 8239) || (c =? 8287) ||
  (c =? 12288) || (c =? 65279).

Fixpoint trimStart (s : jsstring) : jsstring :=
  match s with
  | [] => []
  | c :: t => if is_white_space c then trimStart t else s
  end.

Definition trimEnd (s : jsstring) : jsstring :=
  rev (trimStart (rev s)).

(** [String.prototype.trim] *)
Definition trim (s : jsstring) : jsstring := trimEnd (trimStart s).

(** ** [replace(/\\/g, '/')] and [split('/')] *)

(** [s.replace(/c/g, d)] for a single code unit [c]. *)
Definition replace_all (c d : code_unit) (s : jsstring) : jsstring :=
  map (fun x => if x =? c then d else x) s.

(** [s.split(sep)] for a one-unit separator: the list of the pieces between
    the separators, never empty. *)
Fixpoint split (sep : code_unit) (s : jsstring) : list jsstring :=
  match s with
  | [] => [[]]
  | c :: t =>
      if c =? sep then [] :: split sep t
      else match split sep t with
           | [] => [[c]]
           | p :: ps => (c :: p) :: ps
           end
  end.

(** [Array.prototype.pop], as an expression: the last element, [undefined]
    on an empty array. *)
Fixpoint pop {A : Type} (l : list A) : nullable A :=
  match l with
  | [] => Undefined
  | [x] => Defined x
  | _ :: t => pop t
  end.

(** A value of type [string | undefined] inside a template literal. *)
Definition template_part (v : nullable jsstring) : jsstring :=
  match v with
  | Undefined => js "undefined"
  | Null => js "null"
  | Defined s => s
  end.

(** ** Numbers

    A JavaScript number is a binary64 value. *)
Definition number := spec_float.

Definition prec : Z := 53.
Definition emax : Z := 1024.

Definition zero : number := S754_zero false.
Definition NaN : number := S754_nan.

Definition isNaN (x : number) : bool :=
  match x with
  | S754_nan => true
  | _ => false
  end.

(** The relational operators; every comparison with [NaN] is false. *)
Definition le (x y : number) : bool := SFleb x y.
Definition lt (x y : number) : bool := SFltb x y.
Definition gt (x y : number) : bool := SFltb y x.
Definition ge (x y : number) : bool := SFleb y x.

(** The binary64 value nearest to [m * 10 ^ e] (ties to even). *)
Definition round_decimal (neg : bool) (m : N) (e : Z) : number :=
  match m with
  | N0 => S754_zero neg
  | Npos p =>
      match e with
      | Zneg k =>
          SFdiv prec emax (S754_finite neg p 0)
                (S754_finite false (Pos.pow 10 k) 0)
      | _ => binary_round prec emax neg (Pos.mul p (Z.to_pos (Z.pow 10 e))) 0
      end
  end.

Definition is_digit (c : code_unit) : bool := (48 <=? c) && (c <=? 57).

(** Value of a digit in a radix up to 16, if it is one. *)
Definition digit_in (radix : N) (c : code_unit) : option N :=
  let v :=
    if (48 <=? c) && (c <=? 57) then Some (c - 48)
    else if (97 <=? c) && (c <=? 102) then Some (c - 87)
    else if (65 <=? c) && (c <=? 70) then Some (c - 55)
    else None in
  match v with
  | Some d => if d <? radix then Some d else None
  | None => None
  end.

(** Longest prefix of decimal digits, and the rest. *)
Fixpoint span_digits (s : jsstring) : jsstring * jsstring :=
  match s with
  | [] => ([], [])
  | c :: t =>
      if is_digit c
      then let (d, r) := span_digits t in (c :: d, r)
      else ([], s)
  end.

(** The integer written by a digit string in [radix]; [None] when a unit is
    not a digit of that radix. *)
Fixpoint digits_value (radix : N) (acc : N) (s : jsstring) : option N :=
  match s with
  | [] => Some acc
  | c :: t =>
      match digit_in radix c with
      | Some d => digits_value radix (acc * radix + d) t
      | None => None
      end
  end.

Definition decimal_value (s : jsstring) : N :=
  match digits_value 10 0 s with
  | Some n => n
  | None => 0
  end.

(** [ExponentPart_opt] followed by the end of the string. *)
Definition parse_exponent (s : jsstring) : option Z :=
  match s with
  | [] => Some 0%Z
  | c :: t =>
      if (c =? ch "e") || (c =? ch "E") then
        let (neg, body) :=
          match t with
          | x :: u =>
              if x =? ch "-" then (true, u)
              else if x =? ch "+" then (false, u)
              else (false, t)
          | [] => (false, t)
          end in
        match span_digits body with
        | ((_ :: _) as d, []) =>
            let v := Z.of_N (decimal_value d) in
            Some (if neg then Z.opp v else v)
        | _ => None
        end
      else None
  end.

(** [StrUnsignedDecimalLiteral] other than [Infinity]: mantissa and decimal
    exponent. *)
Definition parse_unsigned_decimal (s : jsstring) : option (N * Z) :=
  let (ip, r1) := span_digits s in
  let (fp, r2) :=
    match r1 with
    | c :: t => if c =? ch "." then span_digits t else ([], r1)
    | [] => ([], r1)
    end in
  match ip ++ fp with
  | [] => None
  | ds =>
      match parse_exponent r2 with
      | Some e => Some (decimal_value ds, (e - Z.of_nat (List.length fp))%Z)
      | None => None
      end
  end.

(** [StrDecimalLiteral]: an optional sign, then [Infinity] or digits. *)
Definition parse_decimal (s : jsstring) : number :=
  let (neg, body) :=
    match s with
    | c :: t =>
        if c =? ch "-" then (true, t)
        else if c =? ch "+" then (false, t)
        else (false, s)
    | [] => (false, s)
    end in
  if list_eq_dec N.eq_dec body (js "Infinity") then S754_infinity neg
  else match parse_unsigned_decimal body with
       | Some (m, e) => round_decimal neg m e
       | None => NaN
       end.

(** [NonDecimalIntegerLiteral]: [0x], [0o] and [0b] prefixes, unsigned. *)
Definition parse_radix (s : jsstring) : option number :=
  match s with
  | z :: p :: ((_ :: _) as body) =>
      let radix :=
        if (p =? ch "x") || (p =? ch "X") then Some 16
        else if (p =? ch "o") || (p =? ch "O") then Some 8
        else if (p =? ch "b") || (p =? ch "B") then Some 2
        else None in
      match radix with
      | Some r =>
          if z =? ch "0" then
            match digits_value r 0 body with
            | Some n => Some (round_decimal false n 0)
            | None => Some NaN
            end
          else None
      | None => None
      end
  | _ => None
  end.

(** [Number(s)] for a string [s] (StringToNumber): white space is skipped at
    both ends, the empty text is [+0], a text that is not a numeric literal
    is [NaN]. *)
Definition Number (s : jsstring) : number :=
  match trim s with
  | [] => zero
  | t => match parse_radix t with
         | Some v => v
         | None => parse_decimal t
         end
  end.

End Js.


(* ===================================================================== *)
(** * The page                                                           *)
(* ===================================================================== *)

Module Page.

Import Js.

(** ** Data model *)

Inductive Status := active | inactive.
Inductive Prescription := required | not_required.

Definition Status_text (s : Status) : jsstring :=
  match s with
  | active => js "active"
  | inactive => js "inactive"
  end.

Definition Prescription_text (p : Prescription) : jsstring :=
  match p with
  | required => js "required"
  | not_required => js "not_required"
  end.

(** [interface InventoryItem]; the fields marked [?] may be absent. *)
Module InventoryItem.
Record t := {
    _id : jsstring;
    name : jsstring;
    category : jsstring;
    price : number;
    stock : number;
    description : jsstring;
    status : Status;
    prescription : Prescription;
    images : nullable (list jsstring);
    image : nullable jsstring;           (* legacy field *)
    brand : nullable jsstring;
    packSize : nullable jsstring
}.
End InventoryItem.

(** The [formData] state cell: the draft, every scalar an editable string. *)
Module Form.
Record t := {
    name : jsstring;
    description : jsstring;
    category : jsstring;
    price : jsstring;
    stock : jsstring;
    brand : jsstring;
    packSize : jsstring;
    status : Status;
    prescription : Prescription;
    images : list jsstring
}.
End Form.

(** A [File] picked in the file input; the page never looks inside it. *)
Record File := { fileName : jsstring }.

(** The state cells of the component ([useState]). *)
Record PageState := {
  inventory : list InventoryItem.t;
  isModalOpen : bool;
  isEditMode : bool;
  selectedItem : option InventoryItem.t;
  formData : Form.t;
  imagePreview : list jsstring;
  imageFiles : list File
}.

(** ** What the handlers do to the outside *)

(** What axios throws: [error.response] is absent on a network failure;
    [message] is [error.response.data.message]. *)
Record ErrorResponse := {
  status : Z;
  message : nullable jsstring
}.

Record AxiosError := { response : nullable ErrorResponse }.

(** The outcome of an awaited request. *)
Inductive HttpResult (A : Type) : Type :=
| Resolved (data : A)
| Rejected (error : AxiosError).
Arguments Resolved {A} data.
Arguments Rejected {A} error.

(** One entry of a multipart [FormData] body. *)
Inductive FormValue :=
| Text (s : jsstring)
| Blob (f : File).

Definition PostData := list (jsstring * FormValue).
Definition Headers := list (jsstring * jsstring).

Inductive LogPayload :=
| LogError (e : AxiosError)
| LogResponse (r : nullable ErrorResponse).

(** The calls a handler makes, in the order it makes them. *)
Inductive Event :=
| PreventDefault
| ToastError (msg : jsstring)
| ToastSuccess (msg : jsstring)
| RouterPush (path : jsstring)
| ConsoleError (label : jsstring) (payload : LogPayload)
| WindowConfirm (msg : jsstring)
| AxiosGet (url : jsstring) (headers : Headers)
| AxiosPost (url : jsstring) (body : PostData) (headers : Headers)
| AxiosPut (url : jsstring) (body : PostData) (headers : Headers)
| AxiosDelete (url : jsstring) (headers : Headers).

Definition is_request (e : Event) : bool :=
  match e with
  | AxiosGet _ _ | AxiosPost _ _ _ | AxiosPut _ _ _ | AxiosDelete _ _ => true
  | _ => false
  end.

(** The network calls of a trace. *)
Definition requests (t : list Event) : list Event := filter is_request t.

(** The component state together with what surrounds it: the [token] entry
    of the session storage, the calls made so far, and the number of object
    URLs handed out by the browser. *)
Record World := {
  page : PageState;
  token : option jsstring;
  trace : list Event;
  blobs : nat
}.

(** ** The state-and-trace monad *)

Definition M (A : Type) : Type := World -> A * World.

Definition ret {A : Type} (a : A) : M A := fun w => (a, w).

Definition bind {A B : Type} (m : M A) (k : A -> M B) : M B :=
  fun w => let (a, w') := m w in k a w'.

Declare Scope page_scope.
Delimit Scope page_scope with page.
Notation "x <- m ;; k" := (bind m (fun x => k))
  (at level 61, m at next level, right associativity) : page_scope.
Notation "m ;; k" := (bind m (fun _ => k))
  (at level 61, right associativity) : page_scope.
Local Open Scope page_scope.

Definition emit (e : Event) : M unit :=
  fun w => (tt, {| page := page w; token := token w;
                   trace := trace w ++ [e]; blobs := blobs w |}).

Definition read : M PageState := fun w => (page w, w).

Definition update (f : PageState -> PageState) : M unit :=
  fun w => (tt, {| page := f (page w); token := token w;
                   trace := trace w; blobs := blobs w |}).

(** The world a computation leaves behind. *)
Definition exec {A : Type} (m : M A) (w : World) : World := snd (m w).

(** [w] after the calls [es], with nothing else touched. *)
Definition logged (w : World) (es : list Event) : World :=
  {| page := page w; token := token w; trace := trace w ++ es;
     blobs := blobs w |}.

(** [sessionStorage.getItem('token')] *)
Definition getItem_token : M (option jsstring) := fun w => (token w, w).

Definition toast_error (msg : jsstring) : M unit := emit (ToastError msg).
Definition toast_success (msg : jsstring) : M unit := emit (ToastSuccess msg).
Definition router_push (path : jsstring) : M unit := emit (RouterPush path).
Definition console_error (label : jsstring) (p : LogPayload) : M unit :=
  emit (ConsoleError label p).

(** The setters returned by [useState]. *)
Definition setInventory (v : list InventoryItem.t) : M unit :=
  update (fun p =>
    {| inventory := v; isModalOpen := isModalOpen p;
       isEditMode := isEditMode p; selectedItem := selectedItem p;
       formData := formData p; imagePreview := imagePreview p;
       imageFiles := imageFiles p |}).

Definition setIsModalOpen (v : bool) : M unit :=
  update (fun p =>
    {| inventory := inventory p; isModalOpen := v;
       isEditMode := isEditMode p; selectedItem := selectedItem p;
       formData := formData p; imagePreview := imagePreview p;
       imageFiles := imageFiles p |}).

Definition setIsEditMode (v : bool) : M unit :=
  update (fun p =>
    {| inventory := inventory p; isModalOpen := isModalOpen p;
       isEditMode := v; selectedItem := selectedItem p;
       formData := formData p; imagePreview := imagePreview p;
       imageFiles := imageFiles p |}).

Definition setSelectedItem (v : option InventoryItem.t) : M unit :=
  update (fun p =>
    {| inventory := inventory p; isModalOpen := isModalOpen p;
       isEditMode := isEditMode p; selectedItem := v;
       formData := formData p; imagePreview := imagePreview p;
       imageFiles := imageFiles p |}).

Definition setFormData (v : Form.t) : M unit :=
  update (fun p =>
    {| inventory := inventory p; isModalOpen := isModalOpen p;
       isEditMode := isEditMode p; selectedItem := selectedItem p;
       formData := v; imagePreview := imagePreview p;
       imageFiles := imageFiles p |}).

Definition setImagePreview (v : list jsstring) : M unit :=
  update (fun p =>
    {| inventory := inventory p; isModalOpen := isModalOpen p;
       isEditMode := isEditMode p; selectedItem := selectedItem p;
       formData := formData p; imagePreview := v;
       imageFiles := imageFiles p |}).

Definition setImageFiles (v : list File) : M unit :=
  update (fun p =>
    {| inventory := inventory p; isModalOpen := isModalOpen p;
       isEditMode := isEditMode p; selectedItem := selectedItem p;
       formData := formData p; imagePreview := imagePreview p;
       imageFiles := v |}).

(** Truthiness of an optional string, and of [a && a.length > 0] for an
    optional array: present and non-empty. *)
Definition present {A : Type} (v : nullable (list A)) : bool :=
  match v with
  | Defined (_ :: _) => true
  | _ => false
  end.

(** [v || d] *)
Definition or_default (v : nullable jsstring) (d : jsstring) : jsstring :=
  match v with
  | Defined ((_ :: _) as s) => s
  | _ => d
  end.

(** [error.response?.status === n] *)
Definition status_is (error : AxiosError) (n : Z) : bool :=
  match response error with
  | Defined r => Z.eqb (status r) n
  | _ => false
  end.

(** [error.response?.data?.message || fallback] *)
Definition message_or (error : AxiosError) (fallback : jsstring) : jsstring :=
  match response error with
  | Defined r => or_default (message r) fallback
  | _ => fallback
  end.

(** ** Handlers *)

Definition slash : code_unit := ch "/".
Definition backslash : code_unit := 92%N.

Definition placeholder : jsstring := js "/placeholder.png".
Definition uploads : jsstring := js "http://localhost:8000/uploads/products/".
Definition api : jsstring := js "http://localhost:8000/api/admin/inventory".
Definition login : jsstring := js "/login".

(** [getImageUrl], lines 76-82. *)
Definition getImageUrl (imagePath : nullable jsstring) : jsstring :=
  match imagePath with
  | Defined ((_ :: _) as p) =>
      let filename := pop (split slash (replace_all backslash slash p)) in
      uploads ++ template_part filename
  | _ => placeholder
  end.

Definition bearer (t : jsstring) : jsstring := js "Bearer " ++ t.

Definition json_headers (t : jsstring) : Headers :=
  [(js "Authorization", bearer t); (js "Content-Type", js "application/json")].

(** [resetForm], lines 282-299. *)
Definition emptyForm : Form.t :=
  {| Form.name := []; Form.description := []; Form.category := [];
     Form.price := []; Form.stock := []; Form.status := active;
     Form.prescription := not_required; Form.images := [];
     Form.brand := []; Form.packSize := [] |}.

Definition resetForm : M unit :=
  setFormData emptyForm ;;
  setImagePreview [] ;;
  setImageFiles [] ;;
  setIsEditMode false ;;
  setSelectedItem None.

(** [handleModalClose], lines 301-304. *)
Definition handleModalClose : M unit :=
  setIsModalOpen false ;;
  resetForm.

(** The [onClick] of the "Add New Item" button, lines 325-328. *)
Definition handleAddNew : M unit :=
  resetForm ;;
  setIsModalOpen true.

(** [fetchInventory], lines 84-112, in two halves: up to the [await], and
    from the [await] on.  The first half tells whether the request went
    out. *)
Definition fetchInventory_request : M bool :=
  t <- getItem_token ;;
  match t with
  | Some ((_ :: _) as tok) =>
      emit (AxiosGet api (json_headers tok)) ;;
      ret true
  | _ =>
      toast_error (js "Authentication token not found") ;;
      router_push login ;;
      ret false
  end.

Definition fetchInventory_settle
    (reply : HttpResult (list InventoryItem.t)) : M unit :=
  match reply with
  | Resolved data => setInventory data
  | Rejected error =>
      console_error (js "Fetch error:") (LogError error) ;;
      console_error (js "Error response:") (LogResponse (response error)) ;;
      if status_is error 401 then
        toast_error (js "Authentication failed. Please login again.") ;;
        router_push login
      else
        toast_error (js "Failed to fetch inventory")
  end.

Definition fetchInventory (reply : HttpResult (list InventoryItem.t))
  : M unit :=
  sent <- fetchInventory_request ;;
  if sent then fetchInventory_settle reply else ret tt.

Section Builtins.

(** Three library functions are left open: [Number.prototype.toString],
    [JSON.stringify] on an array of strings, and [URL.createObjectURL],
    whose result depends on how many object URLs the browser has handed out
    before. *)
Variable numberToString : number -> jsstring.
Variable JSON_stringify : list jsstring -> jsstring.
Variable createObjectURL : nat -> File -> jsstring.

Definition URL_createObjectURL (f : File) : M jsstring :=
  fun w => (createObjectURL (blobs w) f,
            {| page := page w; token := token w; trace := trace w;
               blobs := S (blobs w) |}).

(** [fileArray.map(file => URL.createObjectURL(file))] *)
Fixpoint createPreviews (files : list File) : M (list jsstring) :=
  match files with
  | [] => ret []
  | f :: fs =>
      u <- URL_createObjectURL f ;;
      us <- createPreviews fs ;;
      ret (u :: us)
  end.

(** [handleImageChange], lines 114-123; [files] is [e.target.files]. *)
Definition handleImageChange (files : nullable (list File)) : M unit :=
  match files with
  | Defined ((_ :: _) as fileArray) =>
      setImageFiles fileArray ;;
      previewArray <- createPreviews fileArray ;;
      setImagePreview previewArray
  | _ => ret tt
  end.

(** [handleEdit], lines 221-240. *)
Definition existingImages (item : InventoryItem.t) : list jsstring :=
  match InventoryItem.images item with
  | Defined ((_ :: _) as l) => l
  | _ =>
      match InventoryItem.image item with
      | Defined ((_ :: _) as i) => [i]
      | _ => []
      end
  end.

Definition handleEdit (item : InventoryItem.t) : M unit :=
  setSelectedItem (Some item) ;;
  setFormData
    {| Form.name := InventoryItem.name item;
       Form.description := InventoryItem.description item;
       Form.category := InventoryItem.category item;
       Form.price := numberToString (InventoryItem.price item);
       Form.stock := numberToString (InventoryItem.stock item);
       Form.status := InventoryItem.status item;
       Form.prescription := InventoryItem.prescription item;
       Form.images := existingImages item;
       Form.brand := or_default (InventoryItem.brand item) [];
       Form.packSize := or_default (InventoryItem.packSize item) [] |} ;;
  setImagePreview
    (map (fun img => getImageUrl (Defined img)) (existingImages item)) ;;
  setImageFiles [] ;;
  setIsEditMode true ;;
  setIsModalOpen true.

(** *** [handleSubmit], lines 125-219 *)

(** The four validation rules, in the order of the source. *)
Inductive Rule :=
| RequiredFields
| ImageRequired
| PricePositive
| StockNonNegative.

Definition rule_message (r : Rule) : jsstring :=
  match r with
  | RequiredFields =>
      js "Please fill in all required fields (Pack Size is optional)."
  | ImageRequired => js "Image is required when adding a new item."
  | PricePositive => js "Price must be greater than 0"
  | StockNonNegative => js "Stock cannot be negative"
  end.

(** The condition of lines 129-136. *)
Definition required_missing (fd : Form.t) : bool :=
  negb (truthy (trim (Form.name fd))) ||
  negb (truthy (trim (Form.description fd))) ||
  negb (truthy (Form.category fd)) ||
  negb (truthy (Form.price fd)) ||
  negb (truthy (Form.stock fd)) ||
  negb (truthy (trim (Form.brand fd))).

(** The condition of line 141. *)
Definition image_missing (p : PageState) : bool :=
  negb (isEditMode p) && Nat.eqb (List.length (imageFiles p)) 0.

(** [Number(formData.price)] and [Number(formData.stock)] *)
Definition parsedPrice (p : PageState) : number :=
  Number (Form.price (formData p)).
Definition parsedStock (p : PageState) : number :=
  Number (Form.stock (formData p)).

(** Lines 129-154: the rule that stops the submit, if any. *)
Definition validate (p : PageState) : option Rule :=
  if required_missing (formData p) then Some RequiredFields
  else if image_missing p then Some ImageRequired
  else if le (parsedPrice p) zero then Some PricePositive
  else if lt (parsedStock p) zero then Some StockNonNegative
  else None.

(** Lines 164-182: the multipart body. *)
Definition scalarFields (fd : Form.t) : PostData :=
  [ (js "name", Text (Form.name fd));
    (js "description", Text (Form.description fd));
    (js "category", Text (Form.category fd));
    (js "price", Text (Form.price fd));
    (js "stock", Text (Form.stock fd));
    (js "brand", Text (Form.brand fd));
    (js "packSize", Text (Form.packSize fd));
    (js "status", Text (Status_text (Form.status fd)));
    (js "prescription", Text (Prescription_text (Form.prescription fd))) ].

Definition imageFields (p : PageState) : PostData :=
  if Nat.ltb 0 (List.length (imageFiles p)) then
    map (fun file => (js "images", Blob file)) (imageFiles p)
  else if isEditMode p && Nat.ltb 0 (List.length (Form.images (formData p)))
  then [(js "images", Text (JSON_stringify (Form.images (formData p))))]
  else [].

Definition postData (p : PageState) : PostData :=
  scalarFields (formData p) ++ imageFields p.

(** Lines 188-202: the request, and the notification that follows it. *)
Definition submitRequest (p : PageState) (tok : jsstring) : Event :=
  let headers := [(js "Authorization", bearer tok)] in
  match isEditMode p, selectedItem p with
  | true, Some item =>
      AxiosPut (api ++ js "/" ++ InventoryItem._id item) (postData p) headers
  | _, _ => AxiosPost api (postData p) headers
  end.

Definition submitSuccess (p : PageState) : jsstring :=
  match isEditMode p, selectedItem p with
  | true, Some _ => js "Item updated successfully"
  | _, _ => js "Item added successfully"
  end.

(** Lines 156-218.  [p] is the state the handler closed over; [saved] and
    [fetched] are the outcomes of the two requests it may await. *)
Definition persist (p : PageState) (saved : HttpResult unit)
    (fetched : HttpResult (list InventoryItem.t)) : M unit :=
  t <- getItem_token ;;
  match t with
  | Some ((_ :: _) as tok) =>
      emit (submitRequest p tok) ;;
      match saved with
      | Resolved _ =>
          toast_success (submitSuccess p) ;;
          setIsModalOpen false ;;
          sent <- fetchInventory_request ;;
          resetForm ;;
          if sent then fetchInventory_settle fetched else ret tt
      | Rejected error =>
          console_error (js "Submit error:") (LogError error) ;;
          if status_is error 401 then
            toast_error (js "Authentication failed. Please login again.") ;;
            router_push login
          else if status_is error 400 then
            toast_error (message_or error (js "Invalid data provided"))
          else
            toast_error (message_or error (js "Operation failed"))
      end
  | _ =>
      toast_error (js "Authentication token not found") ;;
      router_push login
  end.

Definition handleSubmit (saved : HttpResult unit)
    (fetched : HttpResult (list InventoryItem.t)) : M unit :=
  emit PreventDefault ;;
  p <- read ;;
  match validate p with
  | Some r => toast_error (rule_message r)
  | None => persist p saved fetched
  end.

(** [handleDelete], lines 242-280.  [confirmed] is the answer to
    [window.confirm]; the data of a resolved delete matters only through
    its truthiness. *)
Definition handleDelete (id : jsstring) (confirmed : bool)
    (deleted : HttpResult bool)
    (fetched : HttpResult (list InventoryItem.t)) : M unit :=
  emit (WindowConfirm (js "Are you sure you want to delete this item?")) ;;
  if confirmed then
    t <- getItem_token ;;
    match t with
    | Some ((_ :: _) as tok) =>
        emit (AxiosDelete (api ++ js "/" ++ id) (json_headers tok)) ;;
        match deleted with
        | Resolved data =>
            if data then
              toast_success (js "Item deleted successfully") ;;
              fetchInventory fetched
            else ret tt
        | Rejected error =>
            console_error (js "Delete error:") (LogError error) ;;
            console_error (js "Error response:")
                          (LogResponse (response error)) ;;
            if status_is error 401 then
              toast_error (js "Authentication failed. Please login again.") ;;
              router_push login
            else
              toast_error (message_or error (js "Failed to delete item"))
        end
    | _ =>
        toast_error (js "Authentication token not found") ;;
        router_push login
    end
  else ret tt.

End Builtins.

End Page.

(* ===================================================================== *)
(** * Fixtures: concrete states on which the handlers are run            *)
(* ===================================================================== *)

Module Fixture.

Import Js Page.

(** Stand-ins for the three open library functions. *)
Definition toText (x : number) : jsstring := js "1".
Definition stringify (l : list jsstring) : jsstring := List.concat l.
Definition objectURL (n : nat) (f : File) : jsstring :=
  js "blob:" ++ fileName f ++ repeat (ch "'") n.

Definition draft (category price stock : string) : Form.t :=
  {| Form.name := js "Soap"; Form.description := js "A bar of soap";
     Form.category := js category; Form.price := js price;
     Form.stock := js stock; Form.brand := js "Acme";
     Form.packSize := []; Form.status := active;
     Form.prescription := not_required; Form.images := [] |}.

Definition soap : InventoryItem.t :=
  {| InventoryItem._id := js "42"; InventoryItem.name := js "Soap";
     InventoryItem.category := js "skin_care";
     InventoryItem.price := Number (js "12.5");
     InventoryItem.stock := Number (js "3");
     InventoryItem.description := js "A bar of soap";
     InventoryItem.status := active;
     InventoryItem.prescription := not_required;
     InventoryItem.images := Defined [js "uploads/a.png"; js "uploads/b.png"];
     InventoryItem.image := Undefined;
     InventoryItem.brand := Defined (js "Acme");
     InventoryItem.packSize := Undefined |}.

(** An item from before multi-image support. *)
Definition legacySoap : InventoryItem.t :=
  {| InventoryItem._id := js "7"; InventoryItem.name := js "Soap";
     InventoryItem.category := js "skin_care";
     InventoryItem.price := Number (js "12.5");
     InventoryItem.stock := Number (js "3");
     InventoryItem.description := js "A bar of soap";
     InventoryItem.status := active;
     InventoryItem.prescription := not_required;
     InventoryItem.images := Defined [];
     InventoryItem.image := Defined (js "uploads\old.png");
     InventoryItem.brand := Undefined;
     InventoryItem.packSize := Undefined |}.

Definition photo : File := {| fileName := js "photo.png" |}.
Definition scan : File := {| fileName := js "scan.png" |}.

(** The modal open on [soap] in edit mode, with the given draft. *)
Definition editing (fd : Form.t) : World :=
  {| page := {| inventory := [soap]; isModalOpen := true; isEditMode := true;
                selectedItem := Some soap; formData := fd;
                imagePreview := []; imageFiles := [] |};
     token := Some (js "secret"); trace := []; blobs := 0 |}.

(** The modal open in create mode, with the given draft and files. *)
Definition creating (fd : Form.t) (files : list File) : World :=
  {| page := {| inventory := [soap]; isModalOpen := true; isEditMode := false;
                selectedItem := None; formData := fd;
                imagePreview := map (objectURL 0) files;
                imageFiles := files |};
     token := Some (js "secret"); trace := []; blobs := List.length files |}.

Definition unauthorized : AxiosError :=
  {| response := Defined {| status := 401; message := Undefined |} |}.

Definition serverDown : AxiosError := {| response := Undefined |}.

End Fixture.

(* ===================================================================== *)
(** * The rest of the component                                          *)
(* ===================================================================== *)

Module Screen.

Import Js Page.
Local Open Scope page_scope.

(** [interface User] *)
Record User := {
  id : jsstring;
  firstName : jsstring;
  lastName : jsstring;
  email : jsstring;
  role : jsstring
}.

(** The [useState] defaults, lines 36-54. *)
Definition initialPage : PageState :=
  {| inventory := []; isModalOpen := false; isEditMode := false;
     selectedItem := None;
     formData :=
       {| Form.name := []; Form.description := []; Form.category := [];
          Form.price := []; Form.stock := []; Form.brand := [];
          Form.packSize := []; Form.status := active;
          Form.prescription := not_required; Form.images := [] |};
     imagePreview := []; imageFiles := [] |}.

(** The page as it is mounted, with [tok] under [token] in the session
    storage. *)
Definition initialWorld (tok : option jsstring) : World :=
  {| page := initialPage; token := tok; trace := []; blobs := 0 |}.

(** The [src] of a row's picture, line 372. *)
Definition thumbnail (item : InventoryItem.t) : jsstring :=
  getImageUrl
    match InventoryItem.images item with
    | Defined (first :: _) => Defined first
    | _ => InventoryItem.image item
    end.

(** The [onChange] of the nine fields of the form, lines 474-572: the draft
    with one field replaced. *)
Definition changeName (v : jsstring) : M unit :=
  p <- read ;;
  setFormData
    {| Form.name := v;
       Form.description := Form.description (formData p);
       Form.category := Form.category (formData p);
       Form.price := Form.price (formData p);
       Form.stock := Form.stock (formData p);
       Form.brand := Form.brand (formData p);
       Form.packSize := Form.packSize (formData p);
       Form.status := Form.status (formData p);
       Form.prescription := Form.prescription (formData p);
       Form.images := Form.images (formData p) |}.

Definition changeDescription (v : jsstring) : M unit :=
  p <- read ;;
  setFormData
    {| Form.name := Form.name (formData p);
       Form.description := v;
       Form.category := Form.category (formData p);
       Form.price := Form.price (formData p);
       Form.stock := Form.stock (formData p);
       Form.brand := Form.brand (formData p);
       Form.packSize := Form.packSize (formData p);
       Form.status := Form.status (formData p);
       Form.prescription := Form.prescription (formData p);
       Form.images := Form.images (formData p) |}.

Definition changeCategory (v : jsstring) : M unit :=
  p <- read ;;
  setFormData
    {| Form.name := Form.name (formData p);
       Form.description := Form.description (formData p);
       Form.category := v;
       Form.price := Form.price (formData p);
       Form.stock := Form.stock (formData p);
       Form.brand := Form.brand (formData p);
       Form.packSize := Form.packSize (formData p);
       Form.status := Form.status (formData p);
       Form.prescription := Form.prescription (formData p);
       Form.images := Form.images (formData p) |}.

Definition changeBrand (v : jsstring) : M unit :=
  p <- read ;;
  setFormData
    {| Form.name := Form.name (formData p);
       Form.description := Form.description (formData p);
       Form.category := Form.category (formData p);
       Form.price := Form.price (formData p);
       Form.stock := Form.stock (formData p);
       Form.brand := v;
       Form.packSize := Form.packSize (formData p);
       Form.status := Form.status (formData p);
       Form.prescription := Form.prescription (formData p);
       Form.images := Form.images (formData p) |}.

Definition changePackSize (v : jsstring) : M unit :=
  p <- read ;;
  setFormData
    {| Form.name := Form.name (formData p);
       Form.description := Form.description (formData p);
       Form.category := Form.category (formData p);
       Form.price := Form.price (formData p);
       Form.stock := Form.stock (formData p);
       Form.brand := Form.brand (formData p);
       Form.packSize := v;
       Form.status := Form.status (formData p);
       Form.prescription := Form.prescription (formData p);
       Form.images := Form.images (formData p) |}.

Definition changePrice (v : jsstring) : M unit :=
  p <- read ;;
  setFormData
    {| Form.name := Form.name (formData p);
       Form.description := Form.description (formData p);
       Form.category := Form.category (formData p);
       Form.price := v;
       Form.stock := Form.stock (formData p);
       Form.brand := Form.brand (formData p);
       Form.packSize := Form.packSize (formData p);
       Form.status := Form.status (formData p);
       Form.prescription := Form.prescription (formData p);
       Form.images := Form.images (formData p) |}.

Definition changeStock (v : jsstring) : M unit :=
  p <- read ;;
  setFormData
    {| Form.name := Form.name (formData p);
       Form.description := Form.description (formData p);
       Form.category := Form.category (formData p);
       Form.price := Form.price (formData p);
       Form.stock := v;
       Form.brand := Form.brand (formData p);
       Form.packSize := Form.packSize (formData p);
       Form.status := Form.status (formData p);
       Form.prescription := Form.prescription (formData p);
       Form.images := Form.images (formData p) |}.

Definition changeStatus (v : Status) : M unit :=
  p <- read ;;
  setFormData
    {| Form.name := Form.name (formData p);
       Form.description := Form.description (formData p);
       Form.category := Form.category (formData p);
       Form.price := Form.price (formData p);
       Form.stock := Form.stock (formData p);
       Form.brand := Form.brand (formData p);
       Form.packSize := Form.packSize (formData p);
       Form.status := v;
       Form.prescription := Form.prescription (formData p);
       Form.images := Form.images (formData p) |}.

Definition changePrescription (v : Prescription) : M unit :=
  p <- read ;;
  setFormData
    {| Form.name := Form.name (formData p);
       Form.description := Form.description (formData p);
       Form.category := Form.category (formData p);
       Form.price := Form.price (formData p);
       Form.stock := Form.stock (formData p);
       Form.brand := Form.brand (formData p);
       Form.packSize := Form.packSize (formData p);
       Form.status := Form.status (formData p);
       Form.prescription := v;
       Form.images := Form.images (formData p) |}.

(** The headers of a request. *)
Definition headers_of (e : Event) : Headers :=
  match e with
  | AxiosGet _ h | AxiosPost _ _ h | AxiosPut _ _ h | AxiosDelete _ h => h
  | _ => []
  end.

(** The [images] entries of a multipart body. *)
Definition is_images (entry : jsstring * FormValue) : bool :=
  if list_eq_dec N.eq_dec (fst entry) (js "images") then true else false.

Section Builtins.

Variable numberToString : number -> jsstring.
Variable JSON_stringify : list jsstring -> jsstring.
Variable createObjectURL : nat -> File -> jsstring.

(** [JSON.parse] of the stored user record is left open as well: [None]
    when the call, or the read of [role] that follows it, throws. *)
Variable JSON_parse : jsstring -> option User.

(** The session gate, lines 56-74.  [storedUser] is
    [sessionStorage.getItem('user')]; the result is what the [user] cell
    holds once the effect has run ([null] before it).  An exception ends the
    effect where it is thrown. *)
Definition sessionGate (storedUser : option jsstring)
    (fetched : HttpResult (list InventoryItem.t)) : M (option User) :=
  match storedUser with
  | Some ((_ :: _) as text) =>
      match JSON_parse text with
      | Some userData =>
          if list_eq_dec N.eq_dec (role userData) (js "admin") then
            fetchInventory fetched ;;
            ret (Some userData)
          else
            toast_error (js "Unauthorized access") ;;
            router_push login ;;
            ret None
      | None => ret None
      end
  | _ =>
      router_push login ;;
      ret None
  end.

(** What the user, and the answers of the backend, can make the page do. *)
Inductive Action :=
| Load (fetched : HttpResult (list InventoryItem.t))
| AddNew
| Edit (item : InventoryItem.t)
| Close
| PickImages (files : nullable (list File))
| Submit (saved : HttpResult unit)
         (fetched : HttpResult (list InventoryItem.t))
| Delete (id : jsstring) (confirmed : bool) (deleted : HttpResult bool)
         (fetched : HttpResult (list InventoryItem.t))
| TypeName (v : jsstring)
| TypeDescription (v : jsstring)
| ChooseCategory (v : jsstring)
| TypeBrand (v : jsstring)
| TypePackSize (v : jsstring)
| TypePrice (v : jsstring)
| TypeStock (v : jsstring)
| ChooseStatus (v : Status)
| ChoosePrescription (v : Prescription).

(** The handler behind each action. *)
Definition perform (a : Action) : M unit :=
  match a with
  | Load fetched => fetchInventory fetched
  | AddNew => handleAddNew
  | Edit item => handleEdit numberToString item
  | Close => handleModalClose
  | PickImages files => handleImageChange createObjectURL files
  | Submit saved fetched => handleSubmit JSON_stringify saved fetched
  | Delete i confirmed deleted fetched =>
      handleDelete i confirmed deleted fetched
  | TypeName v => changeName v
  | TypeDescription v => changeDescription v
  | ChooseCategory v => changeCategory v
  | TypeBrand v => changeBrand v
  | TypePackSize v => changePackSize v
  | TypePrice v => changePrice v
  | TypeStock v => changeStock v
  | ChooseStatus v => changeStatus v
  | ChoosePrescription v => changePrescription v
  end.

(** The actions that stay within the form: they call nothing outside. *)
Definition local (a : Action) : bool :=
  match a with
  | Load _ | Submit _ _ | Delete _ _ _ _ => false
  | _ => true
  end.

(** The inventory a resolved load brings, for the actions that may load. *)
Definition loaded (a : Action) : option (list InventoryItem.t) :=
  match a with
  | Load (Resolved data) => Some data
  | Submit _ (Resolved data) => Some data
  | Delete _ _ _ (Resolved data) => Some data
  | _ => None
  end.

(** A session: the handlers run one after the other, each to its end. *)
Definition session (actions : list Action) (w : World) : World :=
  fold_left (fun w' a => exec (perform a) w') actions w.

End Builtins.

(** The page with another inventory, and the page with the modal closed
    and the draft discarded. *)
Definition with_inventory (l : list InventoryItem.t) (p : PageState)
  : PageState :=
  {| inventory := l; isModalOpen := isModalOpen p;
     isEditMode := isEditMode p; selectedItem := selectedItem p;
     formData := formData p; imagePreview := imagePreview p;
     imageFiles := imageFiles p |}.

Definition pristine (p : PageState) : PageState :=
  {| inventory := inventory p; isModalOpen := false; isEditMode := false;
     selectedItem := None; formData := emptyForm; imagePreview := [];
     imageFiles := [] |}.

(** A request made under [tok] carries it as a bearer token; without a
    token in the session there is no request to make. *)
Definition authorized (tok : option jsstring) (e : Event) : Prop :=
  is_request e = true ->
  match tok with
  | Some ((_ :: _) as t) =>
      In (js "Authorization", js "Bearer " ++ t) (headers_of e)
  | _ => False
  end.

(** What a handler that talks to the backend may have done once it has
    run from [w] to [w']: the session and the object URLs are as before; the
    page is as before or has its modal closed and its draft discarded, with
    the inventory as before or as a resolved load brought it; the calls made
    are added at the end of the trace, the requests among them are
    authorized and at most two. *)
Definition settled (a : Action) (w w' : World) : Prop :=
  token w' = token w /\ blobs w' = blobs w /\
  (exists l,
     (l = inventory (page w) \/ loaded a = Some l) /\
     (page w' = with_inventory l (page w) \/
      page w' = with_inventory l (pristine (page w)))) /\
  exists es,
    trace w' = trace w ++ es /\
    Forall (authorized (token w)) es /\
    List.length (requests es) <= 2.

(** What the cells of the form keep true of each other: the mode follows the
    selection; the draft lists the images of the item under edit, and none
    when there is no such item; without pending files the previews are the
    resolved images of the draft, with pending files there is one preview
    per file. *)
Definition consistent (p : PageState) : Prop :=
  match selectedItem p with
  | Some item =>
      isEditMode p = true /\
      Form.images (formData p) = existingImages item
  | None =>
      isEditMode p = false /\
      Form.images (formData p) = []
  end /\
  match imageFiles p with
  | [] =>
      imagePreview p =
      map (fun img => getImageUrl (Defined img)) (Form.images (formData p))
  | _ :: _ => List.length (imagePreview p) = List.length (imageFiles p)
  end.

End Screen.

(** Further concrete values. *)
Module Scenario.

Import Js Page Screen Fixture.

Definition admin : User :=
  {| id := js "1"; firstName := js "Ada"; lastName := js "Lovelace";
     email := js "ada@example.org"; role := js "admin" |}.

Definition customer : User :=
  {| id := js "2"; firstName := js "Bob"; lastName := js "Stone";
     email := js "bob@example.org"; role := js "customer" |}.

(** Reads the stored record by its first unit only. *)
Definition parseUser (text : jsstring) : option User :=
  match text with
  | c :: _ =>
      if N.eqb c (ch "a") then Some admin
      else if N.eqb c (ch "c") then Some customer
      else None
  | [] => None
  end.

(** The page of [editing], in a session that has lost its token. *)
Definition loggedOut : World :=
  {| page := page (editing (draft "skin_care" "12.5" "3"));
     token := None; trace := []; blobs := 0 |}.

(** Open [soap] for an edit and retype its name. *)
Definition retyping : list Action :=
  [Edit soap; TypeName (js "Soap bar")].

(** Start a new item, type a name and pick a file. *)
Definition drafting : list Action :=
  [AddNew; TypeName (js "Tea"); PickImages (Defined [photo])].

Definition badRequest (msg : nullable jsstring) : AxiosError :=
  {| response := Defined {| status := 400; message := msg |} |}.

Definition serverError (msg : nullable jsstring) : AxiosError :=
  {| response := Defined {| status := 500; message := msg |} |}.

End Scenario.

(* ===================================================================== *)
(** * Properties                                                         *)
(* ===================================================================== *)

Import Js Page.
Local Open Scope page_scope.

(** ** The runtime on concrete inputs *)

Example Number_samples :
  Number (js "12.5") = S754_finite false 7036874417766400 (-49) /\
  Number (js " 0x10 ") = S754_finite false 4503599627370496 (-48) /\
  Number (js "") = zero /\
  Number (js " ") = zero /\
  Number (js "-0") = S754_zero true /\
  Number (js "1e-400") = zero /\
  Number (js "5e-324") = S754_finite false 1 (-1074) /\
  Number (js "1e400") = S754_infinity false /\
  Number (js "-Infinity") = S754_infinity true /\
  Number (js "abc") = NaN /\
  Number (js "1,5") = NaN /\
  Number (js "NaN") = NaN.
Proof. repeat split; vm_compute; reflexivity. Qed.

Example split_samples :
  split slash (js "a/b/c.png") = [js "a"; js "b"; js "c.png"] /\
  split slash (js "") = [[]] /\
  split slash (js "dir/") = [js "dir"; []] /\
  trim (js "  a b  ") = js "a b".
Proof. repeat split; vm_compute; reflexivity. Qed.

(** ** Strings *)

Lemma truthy_false_iff (s : jsstring) : truthy s = false <-> s = [].
Proof. destruct s; simpl; split; congruence. Qed.

Lemma truthy_true_iff (s : jsstring) : truthy s = true <-> s <> [].
Proof. destruct s; simpl; split; congruence. Qed.

Lemma trimStart_all_white (s : jsstring) :
  trimStart s = [] <-> forallb is_white_space s = true.
Proof.
  induction s as [|c t IH]; simpl.
  - tauto.
  - destruct (is_white_space c); simpl.
    + exact IH.
    + split; discriminate.
Qed.

(** A string is empty after trimming exactly when it is all white space. *)
Lemma trim_all_white (s : jsstring) :
  trim s = [] <-> forallb is_white_space s = true.
Proof.
  unfold trim, trimEnd.
  rewrite <- trimStart_all_white.
  split; intro H.
  - destruct (trimStart s) as [|c t] eqn:E; [reflexivity|].
    exfalso.
    assert (Hr : trimStart (rev (c :: t)) = []).
    { apply (f_equal (@rev _)) in H. rewrite rev_involutive in H. exact H. }
    (* [c :: t] starts with a unit that is not white space, so its
       reversal ends with one and cannot be trimmed away *)
    assert (Hc : is_white_space c = false).
    { destruct s as [|x u]; simpl in E; [discriminate|].
      revert E. clear. revert x.
      induction u as [|y u IH]; intros x; simpl.
      - destruct (is_white_space x) eqn:W; [discriminate|].
        intro E; injection E as -> _; exact W.
      - destruct (is_white_space x) eqn:W.
        + apply IH.
        + intro E; injection E as -> _; exact W. }
    apply trimStart_all_white in Hr.
    rewrite forallb_forall in Hr.
    specialize (Hr c). rewrite Hc in Hr.
    assert (Hin : In c (rev (c :: t))).
    { apply in_rev. rewrite rev_involutive. left. reflexivity. }
    specialize (Hr Hin). discriminate.
  - rewrite H. reflexivity.
Qed.

Lemma trim_nil : trim [] = [].
Proof. reflexivity. Qed.

Lemma trim_nonempty (s : jsstring) : trim s <> [] -> s <> [].
Proof. intros H ->. apply H. reflexivity. Qed.

(** ** [split] and [pop] *)

Lemma pop_cons {A : Type} (x y : A) (l : list A) :
  pop (x :: y :: l) = pop (y :: l).
Proof. reflexivity. Qed.

Lemma pop_defined_nonempty {A : Type} (l : list A) (f : A) :
  pop l = Defined f -> l <> [].
Proof. destruct l; simpl; congruence. Qed.

(** The shape of [split sep s]: a first piece free of [sep]; either it is
    the whole of [s], or [s] ends with [sep] followed by the last piece. *)
Lemma split_shape (sep : code_unit) (s : jsstring) :
  exists p ps,
    split sep s = p :: ps /\ ~ In sep p /\
    ((ps = [] /\ s = p) \/
     (exists d f, pop ps = Defined f /\ ~ In sep f /\ s = d ++ sep :: f)).
Proof.
  induction s as [|c t IH].
  - exists [], []. simpl. auto.
  - destruct IH as (p & ps & Hs & Hp & Hcase). simpl.
    destruct (N.eqb_spec c sep) as [->|Hne].
    + exists [], (p :: ps). rewrite Hs. split; [reflexivity|].
      split; [simpl; tauto|]. right.
      destruct Hcase as [[-> ->]|(d & f & Hpop & Hf & ->)].
      * exists [], p. auto.
      * exists (sep :: d), f.
        destruct ps as [|q qs]; [discriminate|]. auto.
    + exists (c :: p), ps. rewrite Hs. split; [reflexivity|].
      split; [simpl; intros [E|E]; [congruence|tauto]|].
      destruct Hcase as [[-> ->]|(d & f & Hpop & Hf & ->)].
      * left. auto.
      * right. exists (c :: d), f. auto.
Qed.

(** [s.split(sep).pop()] is the part of [s] after its last [sep], the whole
    of [s] when it has none. *)
Lemma pop_split (sep : code_unit) (s : jsstring) :
  exists f,
    pop (split sep s) = Defined f /\ ~ In sep f /\
    (s = f \/ exists d, s = d ++ sep :: f).
Proof.
  destruct (split_shape sep s) as (p & ps & Hs & Hp & Hcase).
  rewrite Hs.
  destruct Hcase as [[-> ->]|(d & f & Hpop & Hf & ->)].
  - exists p. auto.
  - exists f. destruct ps as [|q qs]; [discriminate|].
    rewrite pop_cons. eauto.
Qed.

Lemma replace_all_spec (c d x : code_unit) (s : jsstring) :
  In x (replace_all c d s) -> c <> d -> x <> c.
Proof.
  unfold replace_all. rewrite in_map_iff.
  intros (y & Hy & _) Hcd.
  destruct (N.eqb_spec y c); subst; congruence.
Qed.

Lemma replace_all_length (c d : code_unit) (s : jsstring) :
  List.length (replace_all c d s) = List.length s.
Proof. apply length_map. Qed.

Lemma replace_all_nth (c d : code_unit) (s : jsstring) (i : nat) :
  nth_error (replace_all c d s) i =
  option_map (fun x => if N.eqb x c then d else x) (nth_error s i).
Proof. unfold replace_all. apply nth_error_map. Qed.

(** ** Image reference resolution *)

(** C5.  [getImageUrl] is a function of its argument alone.  On [undefined],
    [null] and the empty string it returns ['/placeholder.png'].  On a
    non-empty string it turns every backslash into a slash, keeps what
    follows the last slash (the whole string when there is none) as the
    filename, and returns ['http://localhost:8000/uploads/products/']
    followed by that filename; the filename holds neither a slash nor a
    backslash.  The reference [a/b\c.png] resolves to a URL ending in
    [c.png]. *)
Theorem getImageUrl_spec :
  getImageUrl Undefined = js "/placeholder.png" /\
  getImageUrl Null = js "/placeholder.png" /\
  getImageUrl (Defined []) = js "/placeholder.png" /\
  (forall (c : code_unit) (s : jsstring),
     let normalized := replace_all backslash slash (c :: s) in
     exists filename,
       getImageUrl (Defined (c :: s)) =
         js "http://localhost:8000/uploads/products/" ++ filename /\
       (normalized = filename \/
        exists dir, normalized = dir ++ slash :: filename) /\
       ~ In slash filename /\ ~ In backslash filename /\
       List.length normalized = List.length (c :: s) /\
       (forall i, nth_error normalized i =
                  option_map (fun x => if N.eqb x backslash then slash else x)
                             (nth_error (c :: s) i))) /\
  getImageUrl (Defined (js "a/b\c.png")) =
    js "http://localhost:8000/uploads/products/c.png" /\
  getImageUrl (Defined (js "a/b\\c.png")) =
    js "http://localhost:8000/uploads/products/c.png".
Proof.
  split; [reflexivity|]. split; [reflexivity|]. split; [reflexivity|].
  split; [|split; vm_compute; reflexivity].
  intros c s normalized.
  destruct (pop_split slash normalized) as (f & Hpop & Hf & Hdec).
  exists f.
  split.
  { unfold getImageUrl. fold normalized. rewrite Hpop. reflexivity. }
  split; [exact Hdec|].
  split; [exact Hf|].
  split.
  { intro Hin.
    assert (Hn : In backslash normalized).
    { destruct Hdec as [->|(d & ->)]; [exact Hin|].
      apply in_or_app. right. right. exact Hin. }
    apply replace_all_spec in Hn; [congruence|].
    vm_compute. discriminate. }
  split; [apply replace_all_length|].
  intro i. apply replace_all_nth.
Qed.

(** ** Numbers against zero *)

Lemma le_zero_not_gt (x : number) :
  isNaN x = false -> le x zero = negb (gt x zero).
Proof.
  destruct x as [[]|[]| |[] m e]; intro H;
    try discriminate H; reflexivity.
Qed.

Lemma lt_zero_not_ge (x : number) :
  isNaN x = false -> lt x zero = negb (ge x zero).
Proof.
  destruct x as [[]|[]| |[] m e]; intro H;
    try discriminate H; reflexivity.
Qed.

(** [NaN] is neither below nor above anything. *)
Lemma NaN_compares_false (y : number) :
  le NaN y = false /\ lt NaN y = false /\ gt NaN y = false /\ ge NaN y = false.
Proof. destruct y as [s|s| |s m e]; repeat split. Qed.

(** ** Traces *)

Lemma requests_app (t u : list Event) :
  requests (t ++ u) = requests t ++ requests u.
Proof. apply filter_app. Qed.

Lemma logged_logged (w : World) (es fs : list Event) :
  logged (logged w es) fs = logged w (es ++ fs).
Proof. unfold logged; simpl. rewrite app_assoc. reflexivity. Qed.

Lemma emit_logged (e : Event) (w : World) : emit e w = (tt, logged w [e]).
Proof. reflexivity. Qed.

(** ** Submit: validation *)

Section Submit.

Variable JSON_stringify : list jsstring -> jsstring.

Local Abbreviation handleSubmit := (Page.handleSubmit JSON_stringify).
Local Abbreviation persist := (Page.persist JSON_stringify).

(** A failed rule ends the submit with its message and nothing else. *)
Lemma handleSubmit_rejected saved fetched (w : World) (r : Rule) :
  validate (page w) = Some r ->
  handleSubmit saved fetched w =
    (tt, logged w [PreventDefault; ToastError (rule_message r)]).
Proof.
  intro H. unfold Page.handleSubmit, bind, read, toast_error.
  rewrite !emit_logged. simpl. rewrite H.
  rewrite emit_logged, logged_logged. reflexivity.
Qed.

Lemma handleSubmit_accepted saved fetched (w : World) :
  validate (page w) = None ->
  handleSubmit saved fetched w =
    persist (page w) saved fetched (logged w [PreventDefault]).
Proof.
  intro H. unfold Page.handleSubmit, bind, read.
  rewrite emit_logged. simpl. rewrite H. reflexivity.
Qed.

Lemma rejected_no_request (w : World) (r : Rule) :
  requests (trace (logged w [PreventDefault; ToastError (rule_message r)])) =
  requests (trace w).
Proof. simpl. rewrite requests_app. simpl. apply app_nil_r. Qed.

(** The required-field test of the source, field by field. *)
Lemma required_missing_iff (fd : Form.t) :
  required_missing fd = true <->
  trim (Form.name fd) = [] \/ trim (Form.description fd) = [] \/
  Form.category fd = [] \/ Form.price fd = [] \/ Form.stock fd = [] \/
  trim (Form.brand fd) = [].
Proof.
  unfold required_missing.
  rewrite !orb_true_iff, !negb_true_iff, !truthy_false_iff. tauto.
Qed.

(** Six fields that are non-empty after trimming pass the test. *)
Lemma required_present_of_trimmed (fd : Form.t) :
  trim (Form.name fd) <> [] -> trim (Form.description fd) <> [] ->
  trim (Form.category fd) <> [] -> trim (Form.price fd) <> [] ->
  trim (Form.stock fd) <> [] -> trim (Form.brand fd) <> [] ->
  required_missing fd = false.
Proof.
  intros Hn Hd Hc Hp Hs Hb.
  destruct (required_missing fd) eqn:E; [|reflexivity].
  apply required_missing_iff in E.
  apply trim_nonempty in Hc, Hp, Hs. tauto.
Qed.

(** C3 (amended).  Whenever [name], [description] or [brand] is empty after
    trimming, or [category], [price] or [stock] is the empty string, the
    submit is stopped by the required-fields rule, whatever else is wrong
    with the draft: the message is the required-fields one, the state is
    untouched and no request goes out.  The rule fires in no other case, so
    an empty [packSize] alone never triggers it. *)
Theorem required_rule saved fetched (w : World) :
  (validate (page w) = Some RequiredFields <->
   trim (Form.name (formData (page w))) = [] \/
   trim (Form.description (formData (page w))) = [] \/
   Form.category (formData (page w)) = [] \/
   Form.price (formData (page w)) = [] \/
   Form.stock (formData (page w)) = [] \/
   trim (Form.brand (formData (page w))) = []) /\
  (validate (page w) = Some RequiredFields ->
   handleSubmit saved fetched w =
     (tt, logged w
        [PreventDefault;
         ToastError
           (js "Please fill in all required fields (Pack Size is optional).")])
   /\ page (exec (handleSubmit saved fetched) w) = page w
   /\ requests (trace (exec (handleSubmit saved fetched) w)) =
      requests (trace w)).
Proof.
  split.
  - rewrite <- required_missing_iff. unfold validate.
    destruct (required_missing (formData (page w))).
    + tauto.
    + split; [|discriminate].
      destruct (image_missing (page w)); [discriminate|].
      destruct (le (parsedPrice (page w)) zero); [discriminate|].
      destruct (lt (parsedStock (page w)) zero); discriminate.
  - intro H. unfold exec.
    rewrite (handleSubmit_rejected saved fetched w H).
    split; [reflexivity|]. split; [reflexivity|].
    apply rejected_no_request.
Qed.

(** C4.  In create mode, a draft that passes the required-fields test with
    no pending image file is stopped by the image rule: the message is the
    image-required one, the state is untouched and no request goes out.  In
    edit mode the image rule never stops a submit. *)
Theorem image_rule saved fetched (w : World) :
  (required_missing (formData (page w)) = false ->
   isEditMode (page w) = false ->
   imageFiles (page w) = [] ->
   validate (page w) = Some ImageRequired /\
   handleSubmit saved fetched w =
     (tt, logged w
        [PreventDefault;
         ToastError (js "Image is required when adding a new item.")]) /\
   page (exec (handleSubmit saved fetched) w) = page w /\
   requests (trace (exec (handleSubmit saved fetched) w)) =
   requests (trace w)) /\
  (isEditMode (page w) = true -> validate (page w) <> Some ImageRequired).
Proof.
  split.
  - intros Hreq Hmode Hfiles.
    assert (H : validate (page w) = Some ImageRequired).
    { unfold validate, image_missing.
      rewrite Hreq, Hmode, Hfiles. reflexivity. }
    split; [exact H|]. unfold exec.
    rewrite (handleSubmit_rejected saved fetched w H).
    split; [reflexivity|]. split; [reflexivity|].
    apply rejected_no_request.
  - intro Hmode. unfold validate, image_missing. rewrite Hmode. simpl.
    destruct (required_missing (formData (page w))); [discriminate|].
    destruct (le (parsedPrice (page w)) zero); [discriminate|].
    destruct (lt (parsedStock (page w)) zero); discriminate.
Qed.

(** C1 (amended).  For a draft that passes the required-fields and image
    tests and whose price text parses to a number (not [NaN]): the submit
    gets past the price rule exactly when the parsed price is greater than
    zero; when it is not (every value at or below zero), the submit is
    stopped with the price message, the state untouched and no request
    sent. *)
Theorem price_rule saved fetched (w : World) :
  required_missing (formData (page w)) = false ->
  image_missing (page w) = false ->
  isNaN (parsedPrice (page w)) = false ->
  ((validate (page w) = Some StockNonNegative \/ validate (page w) = None) <->
   gt (parsedPrice (page w)) zero = true) /\
  (le (parsedPrice (page w)) zero = true <->
   gt (parsedPrice (page w)) zero = false) /\
  (gt (parsedPrice (page w)) zero = false ->
   validate (page w) = Some PricePositive /\
   handleSubmit saved fetched w =
     (tt, logged w
        [PreventDefault; ToastError (js "Price must be greater than 0")]) /\
   page (exec (handleSubmit saved fetched) w) = page w /\
   requests (trace (exec (handleSubmit saved fetched) w)) =
   requests (trace w)).
Proof.
  intros Hreq Himg Hnum.
  pose proof (le_zero_not_gt _ Hnum) as Hle.
  assert (Hv : gt (parsedPrice (page w)) zero = false ->
               validate (page w) = Some PricePositive).
  { intro Hgt. unfold validate. rewrite Hreq, Himg, Hle, Hgt. reflexivity. }
  split; [|split].
  - split.
    + intros Hv'. destruct (gt (parsedPrice (page w)) zero); [reflexivity|].
      rewrite (Hv eq_refl) in Hv'. destruct Hv'; discriminate.
    + intro Hgt. unfold validate. rewrite Hreq, Himg, Hle, Hgt. simpl.
      destruct (lt (parsedStock (page w)) zero); auto.
  - rewrite Hle. destruct (gt (parsedPrice (page w)) zero); simpl;
      split; congruence.
  - intro Hgt. specialize (Hv Hgt). split; [exact Hv|]. unfold exec.
    rewrite (handleSubmit_rejected saved fetched w Hv).
    split; [reflexivity|]. split; [reflexivity|].
    apply rejected_no_request.
Qed.

(** C2 (amended).  For a draft that passes the required-fields, image and
    price tests and whose stock text parses to a number (not [NaN]): the
    submit gets past the stock rule exactly when the parsed stock is at
    least zero; when it is not (every value below zero), the submit is
    stopped with the stock message, the state untouched and no request
    sent. *)
Theorem stock_rule saved fetched (w : World) :
  required_missing (formData (page w)) = false ->
  image_missing (page w) = false ->
  le (parsedPrice (page w)) zero = false ->
  isNaN (parsedStock (page w)) = false ->
  (validate (page w) = None <-> ge (parsedStock (page w)) zero = true) /\
  (lt (parsedStock (page w)) zero = true <->
   ge (parsedStock (page w)) zero = false) /\
  (ge (parsedStock (page w)) zero = false ->
   validate (page w) = Some StockNonNegative /\
   handleSubmit saved fetched w =
     (tt, logged w
        [PreventDefault; ToastError (js "Stock cannot be negative")]) /\
   page (exec (handleSubmit saved fetched) w) = page w /\
   requests (trace (exec (handleSubmit saved fetched) w)) =
   requests (trace w)).
Proof.
  intros Hreq Himg Hprice Hnum.
  pose proof (lt_zero_not_ge _ Hnum) as Hlt.
  assert (Hv : validate (page w) =
               if ge (parsedStock (page w)) zero then None
               else Some StockNonNegative).
  { unfold validate. rewrite Hreq, Himg, Hprice, Hlt.
    destruct (ge (parsedStock (page w)) zero); reflexivity. }
  split; [|split].
  - rewrite Hv. destruct (ge (parsedStock (page w)) zero);
      split; congruence.
  - rewrite Hlt. destruct (ge (parsedStock (page w)) zero); simpl;
      split; congruence.
  - intro Hge. rewrite Hge in Hv. split; [exact Hv|]. unfold exec.
    rewrite (handleSubmit_rejected saved fetched w Hv).
    split; [reflexivity|]. split; [reflexivity|].
    apply rejected_no_request.
Qed.

(** ** Submit: persistence *)

(** With a token in the session, the request is the first call made. *)
Lemma persist_sends (p : PageState) saved fetched (w : World) c tok :
  token w = Some (c :: tok) ->
  exists rest,
    trace (exec (persist p saved fetched) w) =
    trace w ++ submitRequest JSON_stringify p (c :: tok) :: rest.
Proof.
  intro Ht. unfold exec, Page.persist, bind, getItem_token. rewrite Ht.
  rewrite emit_logged.
  destruct saved as [d|error].
  - unfold toast_success, setIsModalOpen, fetchInventory_request, resetForm,
      setFormData, setImagePreview, setImageFiles, setIsEditMode,
      setSelectedItem, bind, getItem_token, update, emit, ret; simpl.
    rewrite Ht; simpl.
    destruct fetched as [data|e]; simpl.
    + rewrite <- !app_assoc. simpl. eauto.
    + unfold console_error, toast_error, router_push, bind, emit; simpl.
      destruct (status_is e 401); simpl; rewrite <- !app_assoc; simpl; eauto.
  - unfold console_error, toast_error, router_push, bind, emit; simpl.
    destruct (status_is error 401); [|destruct (status_is error 400)];
      simpl; rewrite <- !app_assoc; simpl; eauto.
Qed.

(** What a 401 on the create or update request leads to. *)
Lemma persist_unauthorized (p : PageState) fetched (w : World) c tok error :
  token w = Some (c :: tok) ->
  status_is error 401 = true ->
  persist p (Rejected error) fetched w =
    (tt, logged w
       [submitRequest JSON_stringify p (c :: tok);
        ConsoleError (js "Submit error:") (LogError error);
        ToastError (js "Authentication failed. Please login again.");
        RouterPush (js "/login")]).
Proof.
  intros Ht H401. unfold Page.persist, bind, getItem_token. rewrite Ht.
  unfold console_error, toast_error, router_push, bind, emit; simpl.
  rewrite H401. unfold logged; simpl.
  rewrite <- !app_assoc. reflexivity.
Qed.

(** C10.  In edit mode, for a draft that passes validation with no pending
    image file and an empty list of existing images, the body of the request
    is exactly the nine scalar fields, in the order of the source: it has no
    [images] entry, neither a file nor a serialised list.  With an item
    selected and a token in the session, that body goes out in a PUT to the
    item's address, as the first call after [preventDefault]. *)
Theorem edit_without_images_payload saved fetched (w : World) :
  isEditMode (page w) = true ->
  validate (page w) = None ->
  imageFiles (page w) = [] ->
  Form.images (formData (page w)) = [] ->
  postData JSON_stringify (page w) =
    [ (js "name", Text (Form.name (formData (page w))));
      (js "description", Text (Form.description (formData (page w))));
      (js "category", Text (Form.category (formData (page w))));
      (js "price", Text (Form.price (formData (page w))));
      (js "stock", Text (Form.stock (formData (page w))));
      (js "brand", Text (Form.brand (formData (page w))));
      (js "packSize", Text (Form.packSize (formData (page w))));
      (js "status", Text (Status_text (Form.status (formData (page w)))));
      (js "prescription",
       Text (Prescription_text (Form.prescription (formData (page w))))) ] /\
  (forall v, ~ In (js "images", v) (postData JSON_stringify (page w))) /\
  (forall item c tok,
     selectedItem (page w) = Some item ->
     token w = Some (c :: tok) ->
     exists rest,
       trace (exec (handleSubmit saved fetched) w) =
       trace w ++
       PreventDefault ::
       AxiosPut (js "http://localhost:8000/api/admin/inventory/" ++
                 InventoryItem._id item)
                (postData JSON_stringify (page w))
                [(js "Authorization", js "Bearer " ++ c :: tok)] :: rest).
Proof.
  intros Hmode Hv Hfiles Himgs.
  assert (Hbody : postData JSON_stringify (page w) =
                  scalarFields (formData (page w))).
  { unfold postData, imageFields. rewrite Hfiles, Himgs, Hmode.
    reflexivity. }
  split; [rewrite Hbody; reflexivity|].
  split.
  - intros v Hin. rewrite Hbody in Hin. unfold scalarFields in Hin.
    simpl in Hin.
    repeat (destruct Hin as [Hin|Hin];
            [apply (f_equal fst) in Hin; vm_compute in Hin; discriminate|]).
    exact Hin.
  - intros item c tok Hsel Ht. unfold exec.
    rewrite (handleSubmit_accepted saved fetched w Hv).
    destruct (@persist_sends (page w) saved fetched
                (logged w [PreventDefault]) c tok Ht) as (rest & Hrest).
    exists rest. unfold exec in Hrest. rewrite Hrest. simpl.
    rewrite <- app_assoc. simpl.
    unfold submitRequest. rewrite Hmode, Hsel. reflexivity.
Qed.

End Submit.

(** ** Starting an edit *)

Section Edit.

Variable numberToString : number -> jsstring.

Local Abbreviation handleEdit := (Page.handleEdit numberToString).

Lemma handleEdit_formData (item : InventoryItem.t) (w : World) :
  Form.images (formData (page (exec (handleEdit item) w))) =
  existingImages item.
Proof. reflexivity. Qed.

(** C6.  [handleEdit] fills the draft's image list from the item: the
    [images] sequence itself when it is non-empty; the one-element list of
    the legacy [image] when [images] is empty or absent and [image] is
    non-empty; the empty list when both are empty or absent. *)
Theorem handleEdit_images (item : InventoryItem.t) (w : World) :
  (forall l, InventoryItem.images item = Defined l -> l <> [] ->
     Form.images (formData (page (exec (handleEdit item) w))) = l) /\
  (forall i, present (InventoryItem.images item) = false ->
     InventoryItem.image item = Defined i -> i <> [] ->
     Form.images (formData (page (exec (handleEdit item) w))) = [i]) /\
  (present (InventoryItem.images item) = false ->
   present (InventoryItem.image item) = false ->
   Form.images (formData (page (exec (handleEdit item) w))) = []).
Proof.
  rewrite handleEdit_formData. unfold existingImages.
  split; [|split].
  - intros l -> Hl. destruct l; [contradiction|reflexivity].
  - intros i Himgs -> Hi.
    destruct (InventoryItem.images item) as [| |[|x l]];
      try discriminate Himgs; destruct i; try contradiction; reflexivity.
  - intros Himgs Himg.
    destruct (InventoryItem.images item) as [| |[|x l]];
      try discriminate Himgs;
      destruct (InventoryItem.image item) as [| |[|c i]];
      try discriminate Himg; reflexivity.
Qed.

End Edit.

(** ** Loading the inventory *)

Lemma fetchInventory_no_token (reply : HttpResult (list InventoryItem.t))
    (w : World) :
  token w = None \/ token w = Some [] ->
  fetchInventory reply w =
    (tt, logged w [ToastError (js "Authentication token not found");
                   RouterPush (js "/login")]).
Proof.
  intros Ht. unfold fetchInventory, fetchInventory_request, bind,
    getItem_token.
  destruct Ht as [-> | ->]; unfold toast_error, router_push, bind, emit, ret,
    logged; simpl; rewrite <- app_assoc; reflexivity.
Qed.

Lemma fetchInventory_resolved (data : list InventoryItem.t) (w : World) c tok :
  token w = Some (c :: tok) ->
  fetchInventory (Resolved data) w =
    setInventory data (logged w [AxiosGet api (json_headers (c :: tok))]).
Proof.
  intros Ht. unfold fetchInventory, fetchInventory_request, bind,
    getItem_token. rewrite Ht. reflexivity.
Qed.

Lemma fetchInventory_rejected (error : AxiosError) (w : World) c tok :
  token w = Some (c :: tok) ->
  fetchInventory (Rejected error) w =
    (tt, logged w
       ([AxiosGet api (json_headers (c :: tok));
         ConsoleError (js "Fetch error:") (LogError error);
         ConsoleError (js "Error response:") (LogResponse (response error))]
        ++ if status_is error 401
           then [ToastError (js "Authentication failed. Please login again.");
                 RouterPush (js "/login")]
           else [ToastError (js "Failed to fetch inventory")])).
Proof.
  intros Ht. unfold fetchInventory, fetchInventory_request,
    fetchInventory_settle, bind, getItem_token. rewrite Ht.
  unfold console_error, toast_error, router_push, bind, emit, ret, logged;
    simpl.
  destruct (status_is error 401); simpl; rewrite <- !app_assoc; reflexivity.
Qed.

(** C7.  When the inventory request fails with anything but a 401, the whole
    component state, the inventory list with it, is what it was, and the
    generic notification is shown.  A resolved request puts the response
    body in place of the list as it is.  In every run, a list that differs
    afterwards is the body of a resolved request. *)
Theorem fetchInventory_frame (reply : HttpResult (list InventoryItem.t))
    (w : World) :
  (forall error c tok,
     reply = Rejected error -> token w = Some (c :: tok) ->
     status_is error 401 = false ->
     page (exec (fetchInventory reply) w) = page w /\
     trace (exec (fetchInventory reply) w) =
       trace w ++
       [AxiosGet (js "http://localhost:8000/api/admin/inventory")
          [(js "Authorization", js "Bearer " ++ c :: tok);
           (js "Content-Type", js "application/json")];
        ConsoleError (js "Fetch error:") (LogError error);
        ConsoleError (js "Error response:") (LogResponse (response error));
        ToastError (js "Failed to fetch inventory")]) /\
  (forall data c tok,
     reply = Resolved data -> token w = Some (c :: tok) ->
     inventory (page (exec (fetchInventory reply) w)) = data) /\
  (inventory (page (exec (fetchInventory reply) w)) <> inventory (page w) ->
   exists data,
     reply = Resolved data /\
     inventory (page (exec (fetchInventory reply) w)) = data).
Proof.
  split; [|split].
  - intros error c tok -> Ht H401. unfold exec.
    rewrite (fetchInventory_rejected error w Ht), H401.
    split; reflexivity.
  - intros data c tok -> Ht. unfold exec.
    rewrite (fetchInventory_resolved data w Ht). reflexivity.
  - intro Hchanged.
    destruct (token w) as [[|c tok]|] eqn:Ht.
    + exfalso. apply Hchanged. unfold exec.
      rewrite (fetchInventory_no_token reply w); auto.
    + destruct reply as [data|error].
      * exists data. split; [reflexivity|]. unfold exec.
        rewrite (fetchInventory_resolved data w Ht). reflexivity.
      * exfalso. apply Hchanged. unfold exec.
        rewrite (fetchInventory_rejected error w Ht). reflexivity.
    + exfalso. apply Hchanged. unfold exec.
      rewrite (fetchInventory_no_token reply w); auto.
Qed.

(** ** Rejected sessions *)

Section Unauthorized.

Variable JSON_stringify : list jsstring -> jsstring.

Local Abbreviation handleSubmit := (Page.handleSubmit JSON_stringify).

(** C8.  A 401 answer to any of the three requests -- the inventory load,
    the create or update, the delete -- is followed by the
    authentication-failure notification and the move to the login page, and
    by nothing else: the request that failed is the only one the handler
    made. *)
Theorem unauthorized_redirects (error : AxiosError) (w : World) c tok :
  token w = Some (c :: tok) ->
  status_is error 401 = true ->
  (fetchInventory (Rejected error) w =
     (tt, logged w
        [AxiosGet api (json_headers (c :: tok));
         ConsoleError (js "Fetch error:") (LogError error);
         ConsoleError (js "Error response:") (LogResponse (response error));
         ToastError (js "Authentication failed. Please login again.");
         RouterPush (js "/login")]) /\
   requests (trace (exec (fetchInventory (Rejected error)) w)) =
     requests (trace w) ++ [AxiosGet api (json_headers (c :: tok))]) /\
  (forall fetched,
     validate (page w) = None ->
     handleSubmit (Rejected error) fetched w =
       (tt, logged w
          [PreventDefault;
           submitRequest JSON_stringify (page w) (c :: tok);
           ConsoleError (js "Submit error:") (LogError error);
           ToastError (js "Authentication failed. Please login again.");
           RouterPush (js "/login")]) /\
     requests (trace (exec (handleSubmit (Rejected error) fetched) w)) =
       requests (trace w) ++
       [submitRequest JSON_stringify (page w) (c :: tok)]) /\
  (forall id fetched,
     handleDelete id true (Rejected error) fetched w =
       (tt, logged w
          [WindowConfirm (js "Are you sure you want to delete this item?");
           AxiosDelete (api ++ js "/" ++ id) (json_headers (c :: tok));
           ConsoleError (js "Delete error:") (LogError error);
           ConsoleError (js "Error response:") (LogResponse (response error));
           ToastError (js "Authentication failed. Please login again.");
           RouterPush (js "/login")]) /\
     requests (trace (exec (handleDelete id true (Rejected error) fetched) w))
       = requests (trace w) ++
         [AxiosDelete (api ++ js "/" ++ id) (json_headers (c :: tok))]).
Proof.
  intros Ht H401. split; [|split].
  - unfold exec. rewrite (fetchInventory_rejected error w Ht), H401.
    split; [reflexivity|]. simpl. rewrite requests_app. reflexivity.
  - intros fetched Hv. unfold exec.
    rewrite (handleSubmit_accepted JSON_stringify (Rejected error) fetched w Hv).
    rewrite (@persist_unauthorized JSON_stringify (page w) fetched
               (logged w [PreventDefault]) c tok error Ht H401).
    rewrite logged_logged. split; [reflexivity|].
    simpl. rewrite requests_app. f_equal.
    unfold submitRequest.
    destruct (isEditMode (page w)), (selectedItem (page w)); reflexivity.
  - intros id fetched.
    assert (E : handleDelete id true (Rejected error) fetched w =
       (tt, logged w
          [WindowConfirm (js "Are you sure you want to delete this item?");
           AxiosDelete (api ++ js "/" ++ id) (json_headers (c :: tok));
           ConsoleError (js "Delete error:") (LogError error);
           ConsoleError (js "Error response:") (LogResponse (response error));
           ToastError (js "Authentication failed. Please login again.");
           RouterPush (js "/login")])).
    { unfold handleDelete, bind, getItem_token. rewrite emit_logged.
      simpl. rewrite Ht.
      unfold console_error, toast_error, router_push, bind, emit, logged;
        simpl.
      rewrite H401. simpl. rewrite <- !app_assoc. reflexivity. }
    unfold exec. rewrite E. split; [reflexivity|].
    simpl. rewrite requests_app. reflexivity.
Qed.

End Unauthorized.

(** ** Picking image files *)

Section Images.

Variable createObjectURL : nat -> File -> jsstring.

Local Abbreviation handleImageChange :=
  (Page.handleImageChange createObjectURL).
Local Abbreviation createPreviews := (Page.createPreviews createObjectURL).

Lemma createPreviews_run (files : list File) (w : World) :
  createPreviews files w =
    (map (fun '(i, f) => createObjectURL i f)
         (combine (seq (blobs w) (List.length files)) files),
     {| page := page w; token := token w; trace := trace w;
        blobs := blobs w + List.length files |}).
Proof.
  revert w. induction files as [|f fs IH]; intro w; simpl.
  - unfold ret. rewrite Nat.add_0_r. destruct w; reflexivity.
  - unfold bind, URL_createObjectURL. rewrite IH. simpl.
    unfold ret. rewrite Nat.add_succ_r. reflexivity.
Qed.

Lemma previews_nth (n : nat) (files : list File) (i : nat) :
  nth_error (map (fun '(j, f) => createObjectURL j f)
                 (combine (seq n (List.length files)) files)) i =
  option_map (createObjectURL (n + i)) (nth_error files i).
Proof.
  revert n i. induction files as [|f fs IH]; intros n i; simpl.
  - destruct i; reflexivity.
  - destruct i as [|i]; simpl.
    + rewrite Nat.add_0_r. reflexivity.
    + rewrite IH. rewrite Nat.add_succ_r. reflexivity.
Qed.

(** C9 (amended).  For a selection of at least one file, the pending files
    become exactly the selected files and the previews exactly one fresh
    object URL per selected file, in the order of the files; nothing else
    of the state changes and nothing is sent.  For an empty or absent
    selection the handler changes nothing: the pending files and the
    previews stay what they were. *)
Theorem handleImageChange_selection (f : File) (fs : list File) (w : World) :
  (imageFiles (page (exec (handleImageChange (Defined (f :: fs))) w)) =
     f :: fs /\
   List.length
     (imagePreview (page (exec (handleImageChange (Defined (f :: fs))) w))) =
     List.length (f :: fs) /\
   (forall i,
      nth_error
        (imagePreview (page (exec (handleImageChange (Defined (f :: fs))) w)))
        i =
      option_map (createObjectURL (blobs w + i)) (nth_error (f :: fs) i)) /\
   inventory (page (exec (handleImageChange (Defined (f :: fs))) w)) =
     inventory (page w) /\
   formData (page (exec (handleImageChange (Defined (f :: fs))) w)) =
     formData (page w) /\
   isEditMode (page (exec (handleImageChange (Defined (f :: fs))) w)) =
     isEditMode (page w) /\
   trace (exec (handleImageChange (Defined (f :: fs))) w) = trace w) /\
  handleImageChange (Defined []) w = (tt, w) /\
  handleImageChange Null w = (tt, w) /\
  handleImageChange Undefined w = (tt, w).
Proof.
  split; [|repeat split].
  unfold exec, Page.handleImageChange, bind, setImageFiles, setImagePreview,
    update.
  rewrite createPreviews_run. cbn [snd fst page imageFiles imagePreview
    inventory formData isEditMode trace blobs].
  split; [reflexivity|]. split.
  { rewrite length_map, length_combine, length_seq. apply Nat.min_id. }
  split; [intro i; apply previews_nth|].
  repeat split.
Qed.

End Images.

(* ===================================================================== *)
(** * The rules on concrete drafts                                       *)
(* ===================================================================== *)

Import Fixture.

(** A price of zero is stopped by the price rule. *)
Lemma price_rule_witness :
  gt (parsedPrice (page (editing (draft "skin_care" "0" "5")))) zero = false /\
  validate (page (editing (draft "skin_care" "0" "5"))) = Some PricePositive /\
  Page.handleSubmit stringify (Resolved tt) (Resolved [])
      (editing (draft "skin_care" "0" "5")) =
    (tt, logged (editing (draft "skin_care" "0" "5"))
           [PreventDefault; ToastError (js "Price must be greater than 0")]).
Proof.
  assert (H1 : required_missing
                 (formData (page (editing (draft "skin_care" "0" "5")))) = false)
    by (vm_compute; reflexivity).
  assert (H2 : image_missing (page (editing (draft "skin_care" "0" "5"))) = false)
    by (vm_compute; reflexivity).
  assert (H3 : isNaN (parsedPrice (page (editing (draft "skin_care" "0" "5"))))
               = false)
    by (vm_compute; reflexivity).
  assert (H4 : gt (parsedPrice (page (editing (draft "skin_care" "0" "5")))) zero
               = false)
    by (vm_compute; reflexivity).
  destruct (price_rule stringify (Resolved tt) (Resolved [])
              (editing (draft "skin_care" "0" "5")) H1 H2 H3)
    as (_ & _ & Hreject).
  destruct (Hreject H4) as (Hv & Hrun & _).
  split; [exact H4|]. split; [exact Hv|exact Hrun].
Defined.

(** C1, as stated, fails on a price text that is not a number: [abc] parses
    to [NaN], which is not greater than zero, yet no rule stops the submit
    and the update request goes out. *)
Lemma price_rule_counterexample :
  required_missing (formData (page (editing (draft "skin_care" "abc" "5"))))
    = false /\
  image_missing (page (editing (draft "skin_care" "abc" "5"))) = false /\
  parsedPrice (page (editing (draft "skin_care" "abc" "5"))) = NaN /\
  gt (parsedPrice (page (editing (draft "skin_care" "abc" "5")))) zero = false /\
  validate (page (editing (draft "skin_care" "abc" "5"))) = None /\
  requests
    (trace (exec (Page.handleSubmit stringify (Resolved tt) (Resolved []))
                 (editing (draft "skin_care" "abc" "5")))) =
    [AxiosPut (js "http://localhost:8000/api/admin/inventory/42")
       (scalarFields (draft "skin_care" "abc" "5"))
       [(js "Authorization", js "Bearer secret")];
     AxiosGet (js "http://localhost:8000/api/admin/inventory")
       [(js "Authorization", js "Bearer secret");
        (js "Content-Type", js "application/json")]] /\
  ~ ((validate (page (editing (draft "skin_care" "abc" "5")))
        = Some StockNonNegative \/
      validate (page (editing (draft "skin_care" "abc" "5"))) = None) <->
     gt (parsedPrice (page (editing (draft "skin_care" "abc" "5")))) zero
       = true).
Proof.
  repeat split; try (vm_compute; reflexivity).
  intros [H _].
  assert (E : gt (parsedPrice (page (editing (draft "skin_care" "abc" "5"))))
                zero = true) by (apply H; right; vm_compute; reflexivity).
  vm_compute in E. discriminate E.
Qed.

(** A stock of [-1] is stopped by the stock rule. *)
Lemma stock_rule_witness :
  ge (parsedStock (page (creating (draft "skin_care" "12.5" "-1") [photo])))
     zero = false /\
  validate (page (creating (draft "skin_care" "12.5" "-1") [photo])) =
    Some StockNonNegative /\
  Page.handleSubmit stringify (Resolved tt) (Resolved [])
      (creating (draft "skin_care" "12.5" "-1") [photo]) =
    (tt, logged (creating (draft "skin_care" "12.5" "-1") [photo])
           [PreventDefault; ToastError (js "Stock cannot be negative")]).
Proof.
  assert (H1 : required_missing
                 (formData (page (creating (draft "skin_care" "12.5" "-1")
                                           [photo]))) = false)
    by (vm_compute; reflexivity).
  assert (H2 : image_missing
                 (page (creating (draft "skin_care" "12.5" "-1") [photo]))
               = false)
    by (vm_compute; reflexivity).
  assert (H3 : le (parsedPrice
                     (page (creating (draft "skin_care" "12.5" "-1") [photo])))
                  zero = false)
    by (vm_compute; reflexivity).
  assert (H4 : isNaN (parsedStock
                        (page (creating (draft "skin_care" "12.5" "-1")
                                        [photo]))) = false)
    by (vm_compute; reflexivity).
  assert (H5 : ge (parsedStock
                     (page (creating (draft "skin_care" "12.5" "-1") [photo])))
                  zero = false)
    by (vm_compute; reflexivity).
  destruct (stock_rule stringify (Resolved tt) (Resolved [])
              (creating (draft "skin_care" "12.5" "-1") [photo]) H1 H2 H3 H4)
    as (_ & _ & Hreject).
  destruct (Hreject H5) as (Hv & Hrun & _).
  split; [exact H5|]. split; [exact Hv|exact Hrun].
Defined.

(** C2, as stated, fails on a stock text that is not a number: [abc] parses
    to [NaN], which is not at least zero, yet no rule stops the submit and
    the update request goes out. *)
Lemma stock_rule_counterexample :
  required_missing (formData (page (editing (draft "skin_care" "5" "abc"))))
    = false /\
  image_missing (page (editing (draft "skin_care" "5" "abc"))) = false /\
  le (parsedPrice (page (editing (draft "skin_care" "5" "abc")))) zero
    = false /\
  gt (parsedPrice (page (editing (draft "skin_care" "5" "abc")))) zero
    = true /\
  parsedStock (page (editing (draft "skin_care" "5" "abc"))) = NaN /\
  ge (parsedStock (page (editing (draft "skin_care" "5" "abc")))) zero
    = false /\
  validate (page (editing (draft "skin_care" "5" "abc"))) = None /\
  requests
    (trace (exec (Page.handleSubmit stringify (Resolved tt) (Resolved []))
                 (editing (draft "skin_care" "5" "abc")))) =
    [AxiosPut (js "http://localhost:8000/api/admin/inventory/42")
       (scalarFields (draft "skin_care" "5" "abc"))
       [(js "Authorization", js "Bearer secret")];
     AxiosGet (js "http://localhost:8000/api/admin/inventory")
       [(js "Authorization", js "Bearer secret");
        (js "Content-Type", js "application/json")]] /\
  ~ (validate (page (editing (draft "skin_care" "5" "abc"))) = None <->
     ge (parsedStock (page (editing (draft "skin_care" "5" "abc")))) zero
       = true).
Proof.
  repeat split; try (vm_compute; reflexivity).
  intros [H _].
  assert (E : ge (parsedStock (page (editing (draft "skin_care" "5" "abc"))))
                zero = true) by (apply H; vm_compute; reflexivity).
  vm_compute in E. discriminate E.
Qed.

(** A draft without a price is stopped by the required-fields rule, although
    its stock is negative as well. *)
Lemma required_rule_witness :
  validate (page (editing (draft "skin_care" "" "-1"))) = Some RequiredFields /\
  Page.handleSubmit stringify (Resolved tt) (Resolved [])
      (editing (draft "skin_care" "" "-1")) =
    (tt, logged (editing (draft "skin_care" "" "-1"))
       [PreventDefault;
        ToastError
          (js "Please fill in all required fields (Pack Size is optional).")]).
Proof.
  destruct (required_rule stringify (Resolved tt) (Resolved [])
              (editing (draft "skin_care" "" "-1"))) as (Hiff & Hreject).
  assert (Hv : validate (page (editing (draft "skin_care" "" "-1")))
               = Some RequiredFields).
  { apply Hiff. right. right. right. left. reflexivity. }
  destruct (Hreject Hv) as (Hrun & _).
  split; [exact Hv|exact Hrun].
Defined.

(** C3, as stated, fails on [category], [price] and [stock]: these three are
    tested as they are, not after trimming.  A category or a stock of one
    space is empty after trimming, yet the submit passes every rule and the
    update request goes out; a price of one space is stopped, but by the
    price rule and with the price message. *)
Lemma required_rule_counterexample :
  (trim (Form.category (formData (page (editing (draft " " "5" "5"))))) = [] /\
   validate (page (editing (draft " " "5" "5"))) = None /\
   requests
     (trace (exec (Page.handleSubmit stringify (Resolved tt) (Resolved []))
                  (editing (draft " " "5" "5")))) =
     [AxiosPut (js "http://localhost:8000/api/admin/inventory/42")
        (scalarFields (draft " " "5" "5"))
        [(js "Authorization", js "Bearer secret")];
      AxiosGet (js "http://localhost:8000/api/admin/inventory")
        [(js "Authorization", js "Bearer secret");
         (js "Content-Type", js "application/json")]]) /\
  (trim (Form.stock (formData (page (editing (draft "skin_care" "5" " ")))))
     = [] /\
   validate (page (editing (draft "skin_care" "5" " "))) = None /\
   requests
     (trace (exec (Page.handleSubmit stringify (Resolved tt) (Resolved []))
                  (editing (draft "skin_care" "5" " ")))) =
     [AxiosPut (js "http://localhost:8000/api/admin/inventory/42")
        (scalarFields (draft "skin_care" "5" " "))
        [(js "Authorization", js "Bearer secret")];
      AxiosGet (js "http://localhost:8000/api/admin/inventory")
        [(js "Authorization", js "Bearer secret");
         (js "Content-Type", js "application/json")]]) /\
  (trim (Form.price (formData (page (editing (draft "skin_care" " " "5")))))
     = [] /\
   validate (page (editing (draft "skin_care" " " "5"))) = Some PricePositive /\
   Page.handleSubmit stringify (Resolved tt) (Resolved [])
       (editing (draft "skin_care" " " "5")) =
     (tt, logged (editing (draft "skin_care" " " "5"))
            [PreventDefault; ToastError (js "Price must be greater than 0")])).
Proof. repeat split; vm_compute; reflexivity. Qed.

(** In create mode a complete draft without a file is stopped by the image
    rule; in edit mode the same draft goes through. *)
Lemma image_rule_witness :
  validate (page (creating (draft "skin_care" "12.5" "3") [])) =
    Some ImageRequired /\
  Page.handleSubmit stringify (Resolved tt) (Resolved [])
      (creating (draft "skin_care" "12.5" "3") []) =
    (tt, logged (creating (draft "skin_care" "12.5" "3") [])
           [PreventDefault;
            ToastError (js "Image is required when adding a new item.")]) /\
  validate (page (editing (draft "skin_care" "12.5" "3"))) <>
    Some ImageRequired.
Proof.
  destruct (image_rule stringify (Resolved tt) (Resolved [])
              (creating (draft "skin_care" "12.5" "3") [])) as (Hcreate & _).
  destruct (image_rule stringify (Resolved tt) (Resolved [])
              (editing (draft "skin_care" "12.5" "3"))) as (_ & Hedit).
  assert (H1 : required_missing
                 (formData (page (creating (draft "skin_care" "12.5" "3") [])))
               = false) by (vm_compute; reflexivity).
  destruct (Hcreate H1 eq_refl eq_refl) as (Hv & Hrun & _).
  split; [exact Hv|]. split; [exact Hrun|].
  apply Hedit. reflexivity.
Defined.

(** Editing [soap] copies its two images; editing [legacySoap], whose
    [images] is empty, falls back on its legacy [image]. *)
Lemma handleEdit_images_witness :
  Form.images
    (formData (page (exec (Page.handleEdit toText soap)
                          (creating emptyForm [])))) =
    [js "uploads/a.png"; js "uploads/b.png"] /\
  Form.images
    (formData (page (exec (Page.handleEdit toText legacySoap)
                          (creating emptyForm [])))) =
    [js "uploads\old.png"] /\
  imagePreview (page (exec (Page.handleEdit toText legacySoap)
                           (creating emptyForm []))) =
    [js "http://localhost:8000/uploads/products/old.png"].
Proof.
  destruct (handleEdit_images toText soap (creating emptyForm []))
    as (Hmany & _ & _).
  destruct (handleEdit_images toText legacySoap (creating emptyForm []))
    as (_ & Hlegacy & _).
  split; [|split].
  - apply Hmany; [reflexivity|discriminate].
  - apply Hlegacy; [reflexivity|reflexivity|discriminate].
  - vm_compute. reflexivity.
Defined.

(** A network failure while loading leaves the page as it was. *)
Lemma fetchInventory_frame_witness :
  page (exec (fetchInventory (Rejected serverDown))
             (editing (draft "skin_care" "12.5" "3"))) =
    page (editing (draft "skin_care" "12.5" "3")) /\
  inventory (page (exec (fetchInventory (Resolved [soap; legacySoap]))
                        (editing (draft "skin_care" "12.5" "3")))) =
    [soap; legacySoap].
Proof.
  destruct (fetchInventory_frame (Rejected serverDown)
              (editing (draft "skin_care" "12.5" "3"))) as (Hfail & _ & _).
  destruct (fetchInventory_frame (Resolved [soap; legacySoap])
              (editing (draft "skin_care" "12.5" "3"))) as (_ & Hok & _).
  split.
  - destruct (Hfail serverDown (ch "s") (js "ecret") eq_refl eq_refl eq_refl)
      as (Hpage & _).
    exact Hpage.
  - exact (Hok [soap; legacySoap] (ch "s") (js "ecret") eq_refl eq_refl).
Defined.

(** A 401 on the update of [soap]. *)
Lemma unauthorized_redirects_witness :
  Page.handleSubmit stringify (Rejected unauthorized) (Resolved [])
      (editing (draft "skin_care" "12.5" "3")) =
    (tt, logged (editing (draft "skin_care" "12.5" "3"))
       [PreventDefault;
        AxiosPut (js "http://localhost:8000/api/admin/inventory/42")
          (scalarFields (draft "skin_care" "12.5" "3"))
          [(js "Authorization", js "Bearer secret")];
        ConsoleError (js "Submit error:") (LogError unauthorized);
        ToastError (js "Authentication failed. Please login again.");
        RouterPush (js "/login")]).
Proof.
  assert (Ht : token (editing (draft "skin_care" "12.5" "3")) =
               Some (ch "s" :: js "ecret")) by reflexivity.
  assert (H401 : status_is unauthorized 401 = true) by reflexivity.
  destruct (unauthorized_redirects stringify unauthorized
              (editing (draft "skin_care" "12.5" "3")) Ht H401)
    as (_ & Hsubmit & _).
  assert (Hv : validate (page (editing (draft "skin_care" "12.5" "3"))) = None)
    by (vm_compute; reflexivity).
  destruct (Hsubmit (Resolved []) Hv) as (Hrun & _).
  exact Hrun.
Defined.

(** Updating [soap] with neither new files nor existing images. *)
Lemma edit_without_images_payload_witness :
  postData stringify (page (editing (draft "skin_care" "12.5" "3"))) =
    [ (js "name", Text (js "Soap"));
      (js "description", Text (js "A bar of soap"));
      (js "category", Text (js "skin_care"));
      (js "price", Text (js "12.5"));
      (js "stock", Text (js "3"));
      (js "brand", Text (js "Acme"));
      (js "packSize", Text []);
      (js "status", Text (js "active"));
      (js "prescription", Text (js "not_required")) ] /\
  ~ In (js "images", Text (stringify []))
       (postData stringify (page (editing (draft "skin_care" "12.5" "3")))).
Proof.
  assert (H1 : isEditMode (page (editing (draft "skin_care" "12.5" "3")))
               = true) by reflexivity.
  assert (H2 : validate (page (editing (draft "skin_care" "12.5" "3"))) = None)
    by (vm_compute; reflexivity).
  assert (H3 : imageFiles (page (editing (draft "skin_care" "12.5" "3"))) = [])
    by reflexivity.
  assert (H4 : Form.images
                 (formData (page (editing (draft "skin_care" "12.5" "3")))) = [])
    by reflexivity.
  destruct (edit_without_images_payload stringify (Resolved tt) (Resolved [])
              (editing (draft "skin_care" "12.5" "3")) H1 H2 H3 H4)
    as (Hbody & Hnone & _).
  split; [exact Hbody|apply Hnone].
Defined.

(** C9, as stated, fails on an empty selection: with [photo] pending, a
    change event that carries no file leaves [photo] pending and its
    preview in place, where the claim has both lists emptied. *)
Lemma handleImageChange_counterexample :
  imageFiles
    (page (exec (Page.handleImageChange objectURL (Defined []))
                (creating (draft "skin_care" "12.5" "3") [photo]))) =
    [photo] /\
  imageFiles
    (page (exec (Page.handleImageChange objectURL (Defined []))
                (creating (draft "skin_care" "12.5" "3") [photo]))) <>
    [] /\
  List.length
    (imagePreview
       (page (exec (Page.handleImageChange objectURL (Defined []))
                   (creating (draft "skin_care" "12.5" "3") [photo])))) = 1 /\
  List.length
    (imagePreview
       (page (exec (Page.handleImageChange objectURL (Defined []))
                   (creating (draft "skin_care" "12.5" "3") [photo])))) <>
    List.length (@nil File).
Proof.
  split; [reflexivity|]. split; [discriminate|].
  split; [reflexivity|]. discriminate.
Qed.

(** Picking [scan] and [photo] while [photo] was pending. *)
Example handleImageChange_sample :
  imageFiles
    (page (exec (Page.handleImageChange objectURL (Defined [scan; photo]))
                (creating (draft "skin_care" "12.5" "3") [photo]))) =
    [scan; photo] /\
  imagePreview
    (page (exec (Page.handleImageChange objectURL (Defined [scan; photo]))
                (creating (draft "skin_care" "12.5" "3") [photo]))) =
    [js "blob:scan.png'"; js "blob:photo.png''"].
Proof. split; vm_compute; reflexivity. Qed.

(* ===================================================================== *)
(** * Further facts about the handlers                                   *)
(* ===================================================================== *)

(** The price and stock tests without any assumption on the text: a test
    passes exactly when the parsed value is on the right side of zero or is
    [NaN]. *)
Lemma price_test_passes (p : PageState) :
  le (parsedPrice p) zero = false <->
  gt (parsedPrice p) zero = true \/ isNaN (parsedPrice p) = true.
Proof.
  destruct (parsedPrice p) as [[]|[]| |[] m e]; simpl; split; intro H;
    try discriminate H; try (destruct H as [H|H]; discriminate H); auto.
Qed.

Lemma stock_test_passes (p : PageState) :
  lt (parsedStock p) zero = false <->
  ge (parsedStock p) zero = true \/ isNaN (parsedStock p) = true.
Proof.
  destruct (parsedStock p) as [[]|[]| |[] m e]; simpl; split; intro H;
    try discriminate H; try (destruct H as [H|H]; discriminate H); auto.
Qed.

(** Validation looks at the draft, the mode and the pending files only. *)
Lemma validate_depends_on (p q : PageState) :
  formData p = formData q -> isEditMode p = isEditMode q ->
  imageFiles p = imageFiles q -> validate p = validate q.
Proof.
  intros Hf Hm Hi.
  unfold validate, image_missing, parsedPrice, parsedStock.
  rewrite Hf, Hm, Hi. reflexivity.
Qed.

(** Every rule message is a different text. *)
Lemma rule_message_injective (r s : Rule) :
  rule_message r = rule_message s -> r = s.
Proof. destruct r, s; intro H; try reflexivity; vm_compute in H; discriminate H. Qed.

(** [resetForm] restores the defaults and touches nothing else. *)
Lemma resetForm_run (w : World) :
  resetForm w =
    (tt, {| page := {| inventory := inventory (page w);
                       isModalOpen := isModalOpen (page w);
                       isEditMode := false; selectedItem := None;
                       formData := emptyForm; imagePreview := [];
                       imageFiles := [] |};
            token := token w; trace := trace w; blobs := blobs w |}).
Proof. reflexivity. Qed.

Section Refetch.

Variable JSON_stringify : list jsstring -> jsstring.

(** After a successful create or update the modal is closed, the draft is
    discarded and the list is loaded again; the body of that second answer
    becomes the inventory. *)
Lemma handleSubmit_success (w : World) c tok (data : list InventoryItem.t) :
  validate (page w) = None ->
  token w = Some (c :: tok) ->
  Page.handleSubmit JSON_stringify (Resolved tt) (Resolved data) w =
    (tt, {| page := {| inventory := data; isModalOpen := false;
                       isEditMode := false; selectedItem := None;
                       formData := emptyForm; imagePreview := [];
                       imageFiles := [] |};
            token := token w;
            trace := trace w ++
                     [PreventDefault;
                      submitRequest JSON_stringify (page w) (c :: tok);
                      ToastSuccess (submitSuccess (page w));
                      AxiosGet api (json_headers (c :: tok))];
            blobs := blobs w |}).
Proof.
  intros Hv Ht.
  rewrite (handleSubmit_accepted JSON_stringify (Resolved tt) (Resolved data)
             w Hv).
  unfold Page.persist, bind, getItem_token. simpl. rewrite Ht.
  unfold toast_success, setIsModalOpen, fetchInventory_request, resetForm,
    fetchInventory_settle, setInventory, setFormData, setImagePreview,
    setImageFiles, setIsEditMode, setSelectedItem, bind, getItem_token,
    update, emit, ret; simpl.
  rewrite Ht; simpl. rewrite <- !app_assoc. reflexivity.
Qed.

(** A 401 on the reload that follows a successful delete. *)
Lemma handleDelete_refetch_unauthorized (w : World) c tok id error :
  token w = Some (c :: tok) ->
  status_is error 401 = true ->
  handleDelete id true (Resolved true) (Rejected error) w =
    (tt, logged w
       [WindowConfirm (js "Are you sure you want to delete this item?");
        AxiosDelete (api ++ js "/" ++ id) (json_headers (c :: tok));
        ToastSuccess (js "Item deleted successfully");
        AxiosGet api (json_headers (c :: tok));
        ConsoleError (js "Fetch error:") (LogError error);
        ConsoleError (js "Error response:") (LogResponse (response error));
        ToastError (js "Authentication failed. Please login again.");
        RouterPush (js "/login")]).
Proof.
  intros Ht H401.
  unfold handleDelete, bind, getItem_token. rewrite emit_logged. simpl.
  rewrite Ht. unfold toast_success. simpl.
  match goal with
  | |- fetchInventory _ ?w' = _ =>
      rewrite (@fetchInventory_rejected error w' c tok Ht), H401
  end.
  unfold logged; simpl. rewrite <- !app_assoc. reflexivity.
Qed.

(** Declining the confirmation sends nothing. *)
Lemma handleDelete_declined (w : World) id deleted fetched :
  handleDelete id false deleted fetched w =
    (tt, logged w
       [WindowConfirm (js "Are you sure you want to delete this item?")]).
Proof. reflexivity. Qed.

End Refetch.

(* ===================================================================== *)
(** * Beyond the rules: the rest of the page                             *)
(* ===================================================================== *)

Import Screen Scenario.

(** ** More on [split], [pop] and [replace] *)

Lemma replace_all_idempotent (c d : code_unit) (s : jsstring) :
  replace_all c d (replace_all c d s) = replace_all c d s.
Proof.
  unfold replace_all. rewrite map_map. apply map_ext. intro x.
  destruct (N.eqb_spec x c) as [->|Hx].
  - destruct (N.eqb_spec d c); reflexivity.
  - destruct (N.eqb_spec x c); [contradiction|reflexivity].
Qed.

Lemma replace_all_app (c d : code_unit) (s t : jsstring) :
  replace_all c d (s ++ t) = replace_all c d s ++ replace_all c d t.
Proof. apply map_app. Qed.

Lemma replace_all_absent (c d : code_unit) (s : jsstring) :
  ~ In c s -> replace_all c d s = s.
Proof.
  induction s as [|x s IH]; intro H; simpl; [reflexivity|].
  destruct (N.eqb_spec x c) as [->|_].
  - exfalso. apply H. left. reflexivity.
  - f_equal. apply IH. intro Hin. apply H. right. exact Hin.
Qed.

(** The part after the last separator is determined by the string. *)
Lemma last_piece_unique (sep : code_unit) (d d' f f' : jsstring) :
  ~ In sep f -> ~ In sep f' ->
  d ++ sep :: f = d' ++ sep :: f' -> f = f'.
Proof.
  intros Hf Hf'. revert d'.
  induction d as [|c d IH]; intros [|c' d'] E; simpl in E.
  - congruence.
  - exfalso. injection E as _ E. apply Hf. rewrite E.
    apply in_or_app. right. left. reflexivity.
  - exfalso. injection E as _ E. apply Hf'. rewrite <- E.
    apply in_or_app. right. left. reflexivity.
  - injection E as _ E. exact (IH _ E).
Qed.

Lemma pop_split_after (sep : code_unit) (d f : jsstring) :
  ~ In sep f -> pop (split sep (d ++ sep :: f)) = Defined f.
Proof.
  intro Hf.
  destruct (pop_split sep (d ++ sep :: f)) as (f' & Hpop & Hf' & [E|(d' & E)]).
  - exfalso. apply Hf'. rewrite <- E. apply in_or_app. right. left.
    reflexivity.
  - rewrite Hpop. f_equal. symmetry.
    exact (@last_piece_unique sep d d' f f' Hf Hf' E).
Qed.

Lemma pop_split_whole (sep : code_unit) (f : jsstring) :
  ~ In sep f -> pop (split sep f) = Defined f.
Proof.
  intro Hf.
  destruct (pop_split sep f) as (f' & Hpop & Hf' & [E|(d' & E)]).
  - rewrite Hpop, E. reflexivity.
  - exfalso. apply Hf. rewrite E. apply in_or_app. right. left. reflexivity.
Qed.

(** ** More on image references *)

Lemma backslash_not_slash : backslash <> slash.
Proof. vm_compute. discriminate. Qed.

Lemma replace_all_nonempty (c d x : code_unit) (s : jsstring) :
  exists y t, replace_all c d (x :: s) = y :: t.
Proof. simpl. eauto. Qed.

(** On a non-empty reference the result is the uploads address followed by
    a name free of separators. *)
Lemma getImageUrl_filename (c : code_unit) (s : jsstring) :
  exists f,
    getImageUrl (Defined (c :: s)) = uploads ++ f /\
    ~ In slash f /\ ~ In backslash f.
Proof.
  destruct (pop_split slash (replace_all backslash slash (c :: s)))
    as (f & Hpop & Hf & Hdec).
  exists f. split; [|split].
  - unfold getImageUrl. rewrite Hpop. reflexivity.
  - exact Hf.
  - intro Hin.
    assert (Hn : In backslash (replace_all backslash slash (c :: s))).
    { destruct Hdec as [->|(d & ->)]; [exact Hin|].
      apply in_or_app. right. right. exact Hin. }
    apply replace_all_spec in Hn; [congruence|apply backslash_not_slash].
Qed.

(** A reference that is a directory part, a separator and a name. *)
Lemma getImageUrl_path (dir f : jsstring) (sep : code_unit) :
  sep = slash \/ sep = backslash ->
  ~ In slash f -> ~ In backslash f ->
  getImageUrl (Defined (dir ++ sep :: f)) = uploads ++ f.
Proof.
  intros Hsep Hs Hb.
  assert (E : replace_all backslash slash (dir ++ sep :: f) =
              replace_all backslash slash dir ++ slash :: f).
  { rewrite replace_all_app. f_equal. simpl.
    rewrite (@replace_all_absent backslash slash f Hb).
    destruct Hsep as [->| ->]; reflexivity. }
  assert (Hne : exists y t, dir ++ sep :: f = y :: t)
    by (destruct dir; simpl; eauto).
  destruct Hne as (y & t & Hyt).
  rewrite Hyt. unfold getImageUrl. rewrite <- Hyt, E.
  rewrite (@pop_split_after slash _ f Hs). reflexivity.
Qed.

(** X1.  Windows and POSIX spellings of a reference resolve alike: turning
    the backslashes of a reference into slashes beforehand does not change
    the URL. *)
Theorem getImageUrl_separators (v : jsstring) :
  getImageUrl (Defined (replace_all backslash slash v)) =
  getImageUrl (Defined v).
Proof.
  destruct v as [|c s]; [reflexivity|].
  destruct (replace_all_nonempty backslash slash c s) as (y & t & E).
  unfold getImageUrl at 1. rewrite E, <- E.
  rewrite replace_all_idempotent. reflexivity.
Qed.

(** X2.  Only the last component of a reference counts: whatever the
    directory part and whichever separator ends it, the URL is the uploads
    address followed by the name after the last separator.  A reference that
    ends with a separator resolves to the bare uploads address; a name
    without separators resolves to the uploads address followed by itself. *)
Theorem getImageUrl_last_component (dir f : jsstring) (sep : code_unit) :
  sep = slash \/ sep = backslash ->
  ~ In slash f -> ~ In backslash f ->
  getImageUrl (Defined (dir ++ sep :: f)) =
    js "http://localhost:8000/uploads/products/" ++ f /\
  getImageUrl (Defined (dir ++ [sep])) =
    js "http://localhost:8000/uploads/products/" /\
  (f <> [] ->
   getImageUrl (Defined f) = js "http://localhost:8000/uploads/products/" ++ f).
Proof.
  intros Hsep Hs Hb. split; [|split].
  - exact (@getImageUrl_path dir f sep Hsep Hs Hb).
  - rewrite (@getImageUrl_path dir [] sep Hsep); [apply app_nil_r| |];
      intros [].
  - intro Hne. destruct f as [|c t]; [contradiction|].
    unfold getImageUrl.
    rewrite (@replace_all_absent backslash slash _ Hb),
      (@pop_split_whole slash _ Hs).
    reflexivity.
Qed.

Lemma getImageUrl_last_component_witness :
  getImageUrl (Defined (js "C:\shop\uploads" ++ backslash :: js "tea.png")) =
    js "http://localhost:8000/uploads/products/tea.png" /\
  getImageUrl (Defined (js "uploads/products" ++ [slash])) =
    js "http://localhost:8000/uploads/products/".
Proof.
  assert (Hsep : backslash = slash \/ backslash = backslash)
    by (right; reflexivity).
  assert (Hs : ~ In slash (js "tea.png"))
    by (vm_compute; intuition discriminate).
  assert (Hb : ~ In backslash (js "tea.png"))
    by (vm_compute; intuition discriminate).
  destruct (@getImageUrl_last_component (js "C:\shop\uploads") _ _ Hsep Hs Hb)
    as (Hfull & _ & _).
  split; [exact Hfull|].
  assert (Hsep' : slash = slash \/ slash = backslash) by (left; reflexivity).
  destruct (@getImageUrl_last_component (js "uploads/products") _ _ Hsep' Hs Hb)
    as (_ & Hdir & _).
  exact Hdir.
Defined.

(** X3.  Resolving is idempotent on non-empty references: a URL produced by
    [getImageUrl] resolves to itself, so a resolved URL can be stored and
    shown again.  The placeholder is not such a fixed point: resolved
    again, it is looked up under the uploads address. *)
Theorem getImageUrl_idempotent (c : code_unit) (s : jsstring) :
  getImageUrl (Defined (getImageUrl (Defined (c :: s)))) =
    getImageUrl (Defined (c :: s)) /\
  getImageUrl (Defined (getImageUrl Undefined)) =
    js "http://localhost:8000/uploads/products/placeholder.png".
Proof.
  split; [|vm_compute; reflexivity].
  destruct (getImageUrl_filename c s) as (f & -> & Hs & Hb).
  change uploads with (js "http://localhost:8000/uploads/products" ++ [slash]).
  rewrite <- app_assoc. simpl ([slash] ++ f).
  apply getImageUrl_path; auto.
Qed.

(** ** The table and the modal show the same picture *)

(** X4.  The picture of a row in the table is the first preview the modal
    shows when the row is edited, and the placeholder when the modal has no
    preview to show. *)
Theorem thumbnail_is_first_preview (numberToString : number -> jsstring)
    (item : InventoryItem.t) (w : World) :
  thumbnail item =
  hd (js "/placeholder.png")
     (imagePreview (page (exec (handleEdit numberToString item) w))).
Proof.
  unfold thumbnail, exec, handleEdit; simpl. unfold existingImages.
  destruct (InventoryItem.images item) as [| |[|x l]]; simpl;
    try reflexivity;
    destruct (InventoryItem.image item) as [| |[|c i]]; reflexivity.
Qed.

(** ** The outcomes of the network handlers, case by case *)

Lemma with_inventory_same (p : PageState) :
  with_inventory (inventory p) p = p.
Proof. destruct p; reflexivity. Qed.

Lemma setInventory_run (data : list InventoryItem.t) (w : World) :
  setInventory data w =
    (tt, {| page := with_inventory data (page w); token := token w;
            trace := trace w; blobs := blobs w |}).
Proof. reflexivity. Qed.

Section Outcomes.

Variable JSON_stringify : list jsstring -> jsstring.

Local Abbreviation handleSubmit := (Page.handleSubmit JSON_stringify).

Lemma handleSubmit_no_token saved fetched (w : World) :
  validate (page w) = None ->
  token w = None \/ token w = Some [] ->
  handleSubmit saved fetched w =
    (tt, logged w [PreventDefault;
                   ToastError (js "Authentication token not found");
                   RouterPush (js "/login")]).
Proof.
  intros Hv Ht.
  rewrite (handleSubmit_accepted JSON_stringify saved fetched w Hv).
  unfold Page.persist, bind, getItem_token. simpl.
  destruct Ht as [-> | ->];
    unfold toast_error, router_push, bind, emit, logged; simpl;
    rewrite <- !app_assoc; reflexivity.
Qed.

Lemma handleSubmit_failed fetched (w : World) c tok error :
  validate (page w) = None ->
  token w = Some (c :: tok) ->
  handleSubmit (Rejected error) fetched w =
    (tt, logged w
       ([PreventDefault;
         submitRequest JSON_stringify (page w) (c :: tok);
         ConsoleError (js "Submit error:") (LogError error)] ++
        if status_is error 401
        then [ToastError (js "Authentication failed. Please login again.");
              RouterPush (js "/login")]
        else if status_is error 400
        then [ToastError (message_or error (js "Invalid data provided"))]
        else [ToastError (message_or error (js "Operation failed"))])).
Proof.
  intros Hv Ht.
  rewrite (handleSubmit_accepted JSON_stringify (Rejected error) fetched w Hv).
  unfold Page.persist, bind, getItem_token. simpl. rewrite Ht.
  unfold console_error, toast_error, router_push, bind, emit, logged; simpl.
  destruct (status_is error 401); [|destruct (status_is error 400)];
    simpl; rewrite <- !app_assoc; reflexivity.
Qed.

Lemma handleSubmit_saved (w : World) c tok u fetched :
  validate (page w) = None ->
  token w = Some (c :: tok) ->
  handleSubmit (Resolved u) fetched w =
    fetchInventory_settle fetched
      {| page := pristine (page w); token := token w;
         trace := trace w ++
                  [PreventDefault;
                   submitRequest JSON_stringify (page w) (c :: tok);
                   ToastSuccess (submitSuccess (page w));
                   AxiosGet api (json_headers (c :: tok))];
         blobs := blobs w |}.
Proof.
  intros Hv Ht.
  rewrite (handleSubmit_accepted JSON_stringify (Resolved u) fetched w Hv).
  unfold Page.persist, bind, getItem_token. simpl. rewrite Ht.
  unfold toast_success, setIsModalOpen, fetchInventory_request, resetForm,
    setFormData, setImagePreview, setImageFiles, setIsEditMode,
    setSelectedItem, bind, getItem_token, update, emit, ret; simpl.
  rewrite Ht; simpl. rewrite <- !app_assoc. reflexivity.
Qed.

End Outcomes.

Lemma fetchInventory_settle_run
    (fetched : HttpResult (list InventoryItem.t)) (w : World) :
  fetchInventory_settle fetched w =
    match fetched with
    | Resolved data =>
        (tt, {| page := with_inventory data (page w); token := token w;
                trace := trace w; blobs := blobs w |})
    | Rejected error =>
        (tt, logged w
           ([ConsoleError (js "Fetch error:") (LogError error);
             ConsoleError (js "Error response:")
                          (LogResponse (response error))] ++
            if status_is error 401
            then [ToastError (js "Authentication failed. Please login again.");
                  RouterPush (js "/login")]
            else [ToastError (js "Failed to fetch inventory")]))
    end.
Proof.
  destruct fetched as [data|error]; [reflexivity|].
  unfold fetchInventory_settle, console_error, toast_error, router_push,
    bind, emit, logged; simpl.
  destruct (status_is error 401); simpl; rewrite <- !app_assoc; reflexivity.
Qed.

Lemma handleDelete_no_token (w : World) id deleted fetched :
  token w = None \/ token w = Some [] ->
  handleDelete id true deleted fetched w =
    (tt, logged w
       [WindowConfirm (js "Are you sure you want to delete this item?");
        ToastError (js "Authentication token not found");
        RouterPush (js "/login")]).
Proof.
  intros Ht.
  unfold handleDelete, toast_error, router_push, bind, getItem_token, emit,
    logged; simpl.
  destruct Ht as [Ht|Ht]; rewrite Ht; simpl; rewrite <- !app_assoc;
    reflexivity.
Qed.

Lemma handleDelete_failed (w : World) id c tok error fetched :
  token w = Some (c :: tok) ->
  handleDelete id true (Rejected error) fetched w =
    (tt, logged w
       ([WindowConfirm (js "Are you sure you want to delete this item?");
         AxiosDelete (api ++ js "/" ++ id) (json_headers (c :: tok));
         ConsoleError (js "Delete error:") (LogError error);
         ConsoleError (js "Error response:") (LogResponse (response error))]
        ++ if status_is error 401
           then [ToastError (js "Authentication failed. Please login again.");
                 RouterPush (js "/login")]
           else [ToastError (message_or error (js "Failed to delete item"))])).
Proof.
  intros Ht. unfold handleDelete, bind, getItem_token. simpl. rewrite Ht.
  unfold console_error, toast_error, router_push, bind, emit, logged; simpl.
  destruct (status_is error 401); simpl; rewrite ?Ht; rewrite <- !app_assoc;
    reflexivity.
Qed.

Lemma handleDelete_unconfirmed_by_server (w : World) id c tok fetched :
  token w = Some (c :: tok) ->
  handleDelete id true (Resolved false) fetched w =
    (tt, logged w
       [WindowConfirm (js "Are you sure you want to delete this item?");
        AxiosDelete (api ++ js "/" ++ id) (json_headers (c :: tok))]).
Proof.
  intros Ht. unfold handleDelete, bind, getItem_token. simpl. rewrite Ht.
  unfold emit, ret, logged; simpl. rewrite ?Ht. rewrite <- !app_assoc.
  reflexivity.
Qed.

Lemma handleDelete_deleted (w : World) id c tok fetched :
  token w = Some (c :: tok) ->
  handleDelete id true (Resolved true) fetched w =
    fetchInventory_settle fetched
      (logged w
         [WindowConfirm (js "Are you sure you want to delete this item?");
          AxiosDelete (api ++ js "/" ++ id) (json_headers (c :: tok));
          ToastSuccess (js "Item deleted successfully");
          AxiosGet api (json_headers (c :: tok))]).
Proof.
  intros Ht. unfold handleDelete, bind, getItem_token. simpl. rewrite Ht.
  unfold toast_success, fetchInventory, fetchInventory_request, bind,
    getItem_token, emit, ret, logged; simpl.
  rewrite ?Ht. simpl. rewrite ?Ht. rewrite <- !app_assoc. reflexivity.
Qed.

Lemma fetchInventory_sent (fetched : HttpResult (list InventoryItem.t))
    (w : World) c tok :
  token w = Some (c :: tok) ->
  fetchInventory fetched w =
    fetchInventory_settle fetched
      (logged w [AxiosGet api (json_headers (c :: tok))]).
Proof.
  intros Ht. unfold fetchInventory, fetchInventory_request, bind,
    getItem_token. rewrite Ht. reflexivity.
Qed.

(** ** What every handler keeps *)

Lemma authorized_quiet (tok : option jsstring) (e : Event) :
  is_request e = false -> authorized tok e.
Proof. intros H Hreq. congruence. Qed.

Lemma authorized_get (c : code_unit) (tok : jsstring) :
  authorized (Some (c :: tok)) (AxiosGet api (json_headers (c :: tok))).
Proof. intros _. left. reflexivity. Qed.

Lemma authorized_delete (c : code_unit) (tok url : jsstring) :
  authorized (Some (c :: tok)) (AxiosDelete url (json_headers (c :: tok))).
Proof. intros _. left. reflexivity. Qed.

Lemma authorized_submit JSON_stringify (p : PageState) (c : code_unit)
    (tok : jsstring) :
  authorized (Some (c :: tok)) (submitRequest JSON_stringify p (c :: tok)).
Proof.
  intros _. unfold submitRequest.
  destruct (isEditMode p), (selectedItem p); left; reflexivity.
Qed.

Lemma submitRequest_is_request JSON_stringify (p : PageState) (t : jsstring) :
  is_request (submitRequest JSON_stringify p t) = true.
Proof.
  unfold submitRequest. destruct (isEditMode p), (selectedItem p); reflexivity.
Qed.

Create HintDb page.
#[local] Hint Resolve authorized_get authorized_delete authorized_submit
  : page.
#[local] Hint Extern 1 (authorized _ _) =>
  (apply authorized_quiet; reflexivity) : page.
#[local] Hint Constructors Forall : page.

(** A handler that only adds calls to the trace. *)
Lemma settled_logged (a : Action) (w : World) (es : list Event) :
  Forall (authorized (token w)) es ->
  List.length (requests es) <= 2 ->
  settled a w (logged w es).
Proof.
  intros Hauth Hlen. unfold settled. simpl.
  split; [reflexivity|]. split; [reflexivity|]. split.
  - exists (inventory (page w)). split; [left; reflexivity|].
    left. symmetry. apply with_inventory_same.
  - exists es. auto.
Qed.

(** The second half of a load, after a handler that has sent it. *)
Lemma settled_after_load (a : Action) (w : World) (P : PageState)
    (es : list Event) (fetched : HttpResult (list InventoryItem.t)) :
  P = page w \/ P = pristine (page w) ->
  Forall (authorized (token w)) es ->
  List.length (requests es) <= 2 ->
  (forall data, fetched = Resolved data -> loaded a = Some data) ->
  settled a w
    (exec (fetchInventory_settle fetched)
       {| page := P; token := token w; trace := trace w ++ es;
          blobs := blobs w |}).
Proof.
  intros HP Hauth Hlen Hload. unfold exec.
  rewrite fetchInventory_settle_run.
  destruct fetched as [data|error]; unfold settled; simpl.
  - split; [reflexivity|]. split; [reflexivity|]. split.
    + exists data. split; [right; apply Hload; reflexivity|].
      destruct HP as [-> | ->]; [left|right]; reflexivity.
    + exists es. auto.
  - split; [reflexivity|]. split; [reflexivity|]. split.
    + exists (inventory (page w)). split; [left; reflexivity|].
      destruct HP as [-> | ->]; [left|right].
      * symmetry. apply with_inventory_same.
      * reflexivity.
    + eexists. split; [rewrite <- app_assoc; reflexivity|]. split.
      * apply Forall_app. split; [exact Hauth|].
        destruct (status_is error 401); auto 10 with page.
      * rewrite requests_app.
        destruct (status_is error 401); simpl; rewrite app_nil_r; exact Hlen.
Qed.

Section Sessions.

Variable numberToString : number -> jsstring.
Variable JSON_stringify : list jsstring -> jsstring.
Variable createObjectURL : nat -> File -> jsstring.

Local Abbreviation perform :=
  (Screen.perform numberToString JSON_stringify createObjectURL).
Local Abbreviation session :=
  (Screen.session numberToString JSON_stringify createObjectURL).

Lemma session_app (xs ys : list Action) (w : World) :
  session (xs ++ ys) w = session ys (session xs w).
Proof. apply fold_left_app. Qed.

Lemma load_settled fetched (w : World) :
  settled (Load fetched) w (exec (fetchInventory fetched) w).
Proof.
  destruct (token w) as [[|c tok]|] eqn:Ht.
  - unfold exec. rewrite fetchInventory_no_token by auto.
    apply settled_logged; [auto 10 with page|simpl; lia].
  - unfold exec. rewrite (fetchInventory_sent fetched w Ht).
    apply (@settled_after_load (Load fetched) w (page w)
             [AxiosGet api (json_headers (c :: tok))] fetched).
    + left; reflexivity.
    + rewrite Ht. auto with page.
    + simpl; lia.
    + intros data ->. reflexivity.
  - unfold exec. rewrite fetchInventory_no_token by auto.
    apply settled_logged; [auto 10 with page|simpl; lia].
Qed.

Lemma submit_settled saved fetched (w : World) :
  settled (Submit saved fetched) w
    (exec (Page.handleSubmit JSON_stringify saved fetched) w).
Proof.
  unfold exec.
  destruct (validate (page w)) as [r|] eqn:Hv.
  { rewrite (handleSubmit_rejected JSON_stringify saved fetched w Hv).
    apply settled_logged; [auto 10 with page|simpl; lia]. }
  destruct (token w) as [[|c tok]|] eqn:Ht.
  - rewrite handleSubmit_no_token by auto.
    apply settled_logged; [auto 10 with page|simpl; lia].
  - destruct saved as [u|error].
    + rewrite (@handleSubmit_saved JSON_stringify w c tok u fetched Hv Ht).
      rewrite Ht.
      pose proof (@settled_after_load (Submit (Resolved u) fetched) w
             (pristine (page w))
             [PreventDefault;
              submitRequest JSON_stringify (page w) (c :: tok);
              ToastSuccess (submitSuccess (page w));
              AxiosGet api (json_headers (c :: tok))] fetched) as H.
      unfold exec in H. rewrite Ht in H. apply H.
      * right; reflexivity.
      * auto 10 with page.
      * simpl. rewrite submitRequest_is_request. simpl. lia.
      * intros data ->. reflexivity.
    + rewrite (@handleSubmit_failed JSON_stringify fetched w c tok error Hv Ht).
      apply settled_logged.
      * rewrite Ht. apply Forall_app. split; [auto 10 with page|].
        destruct (status_is error 401); [|destruct (status_is error 400)];
          auto 10 with page.
      * rewrite requests_app. simpl. rewrite submitRequest_is_request.
        destruct (status_is error 401); [|destruct (status_is error 400)];
          simpl; lia.
  - rewrite handleSubmit_no_token by auto.
    apply settled_logged; [auto 10 with page|simpl; lia].
Qed.

Lemma delete_settled id confirmed deleted fetched (w : World) :
  settled (Delete id confirmed deleted fetched) w
    (exec (handleDelete id confirmed deleted fetched) w).
Proof.
  unfold exec. destruct confirmed.
  2:{ change (handleDelete id false deleted fetched w) with
        (tt, logged w
           [WindowConfirm (js "Are you sure you want to delete this item?")]).
      apply settled_logged; [auto 10 with page|simpl; lia]. }
  destruct (token w) as [[|c tok]|] eqn:Ht.
  - rewrite handleDelete_no_token by auto.
    apply settled_logged; [auto 10 with page|simpl; lia].
  - destruct deleted as [[|]|error].
    + rewrite (@handleDelete_deleted w id c tok fetched Ht).
      pose proof (@settled_after_load
             (Delete id true (Resolved true) fetched) w (page w)
             [WindowConfirm (js "Are you sure you want to delete this item?");
              AxiosDelete (api ++ js "/" ++ id) (json_headers (c :: tok));
              ToastSuccess (js "Item deleted successfully");
              AxiosGet api (json_headers (c :: tok))] fetched) as H.
      unfold exec in H. apply H.
      * left; reflexivity.
      * rewrite Ht. auto 10 with page.
      * simpl. lia.
      * intros data ->. reflexivity.
    + rewrite (@handleDelete_unconfirmed_by_server w id c tok fetched Ht).
      apply settled_logged; [rewrite Ht; auto 10 with page|simpl; lia].
    + rewrite (@handleDelete_failed w id c tok error fetched Ht).
      apply settled_logged.
      * rewrite Ht. apply Forall_app. split; [auto 10 with page|].
        destruct (status_is error 401); auto 10 with page.
      * rewrite requests_app.
        destruct (status_is error 401); simpl; lia.
  - rewrite handleDelete_no_token by auto.
    apply settled_logged; [auto 10 with page|simpl; lia].
Qed.

(** The handlers that talk to the backend. *)
Lemma network_settled (a : Action) (w : World) :
  local a = false -> settled a w (exec (perform a) w).
Proof.
  destruct a; try discriminate; intros _.
  - apply load_settled.
  - apply submit_settled.
  - apply delete_settled.
Qed.

(** The handlers that stay within the form. *)
Lemma local_run (a : Action) (w : World) :
  local a = true ->
  token (exec (perform a) w) = token w /\
  trace (exec (perform a) w) = trace w /\
  inventory (page (exec (perform a) w)) = inventory (page w).
Proof.
  destruct a; try discriminate; intros _; try (repeat split; reflexivity).
  destruct files as [| |[|f fs]]; try (repeat split; reflexivity).
  unfold Screen.perform, exec, Page.handleImageChange, bind, setImageFiles,
    setImagePreview, update.
  rewrite createPreviews_run. repeat split; reflexivity.
Qed.

Lemma consistent_with_inventory (l : list InventoryItem.t) (p : PageState) :
  consistent p -> consistent (with_inventory l p).
Proof. intro H. exact H. Qed.

Lemma consistent_pristine (l : list InventoryItem.t) (p : PageState) :
  consistent (with_inventory l (pristine p)).
Proof. repeat split. Qed.

Lemma perform_consistent (a : Action) (w : World) :
  consistent (page w) -> consistent (page (exec (perform a) w)).
Proof.
  intro H. destruct (local a) eqn:Hl.
  - destruct a; try discriminate; try exact H.
    4:{ destruct files as [| |[|f fs]]; try exact H.
        unfold Screen.perform, exec, Page.handleImageChange, bind,
          setImageFiles, setImagePreview, update.
        rewrite createPreviews_run.
        destruct H as [Hsel _]. split; [exact Hsel|].
        cbn [snd fst page imageFiles imagePreview].
        rewrite length_map, length_combine, length_seq. apply Nat.min_id. }
    all: repeat split.
  - destruct (@network_settled a w Hl) as (_ & _ & (l & _ & [E|E]) & _);
      rewrite E.
    + apply consistent_with_inventory. exact H.
    + apply consistent_pristine.
Qed.

Lemma session_consistent (actions : list Action) (w : World) :
  consistent (page w) -> consistent (page (session actions w)).
Proof.
  revert w. induction actions as [|a actions IH]; intros w H; simpl.
  - exact H.
  - apply IH. apply perform_consistent. exact H.
Qed.

(** What any handler does to the session and to the trace. *)
Lemma perform_trace (a : Action) (w : World) :
  token (exec (perform a) w) = token w /\
  exists es,
    trace (exec (perform a) w) = trace w ++ es /\
    Forall (authorized (token w)) es.
Proof.
  destruct (local a) eqn:Hl.
  - destruct (@local_run a w Hl) as (Ht & Htr & _).
    split; [exact Ht|]. exists []. rewrite app_nil_r. auto.
  - destruct (@network_settled a w Hl) as (Ht & _ & _ & es & Htr & Hauth & _).
    split; [exact Ht|]. exists es. auto.
Qed.

Lemma session_trace (actions : list Action) (w : World) :
  token (session actions w) = token w /\
  exists es,
    trace (session actions w) = trace w ++ es /\
    Forall (authorized (token w)) es.
Proof.
  revert w. induction actions as [|a actions IH]; intros w; simpl.
  - split; [reflexivity|]. exists []. rewrite app_nil_r. auto.
  - destruct (perform_trace a w) as (Ht & es & Htr & Hauth).
    destruct (IH (exec (perform a) w)) as (Ht' & es' & Htr' & Hauth').
    split; [congruence|].
    exists (es ++ es'). split.
    + rewrite Htr', Htr, app_assoc. reflexivity.
    + apply Forall_app. split; [exact Hauth|]. rewrite <- Ht. exact Hauth'.
Qed.

Lemma unauthorized_no_request (tok : option jsstring) (es : list Event) :
  tok = None \/ tok = Some [] ->
  Forall (authorized tok) es -> requests es = [].
Proof.
  intros Htok H. induction H as [|e es He _ IH]; [reflexivity|].
  simpl. fold (requests es). rewrite IH.
  destruct (is_request e) eqn:Hreq; [|reflexivity].
  exfalso. specialize (He Hreq). destruct Htok as [-> | ->]; exact He.
Qed.

(** What any handler does to the inventory. *)
Lemma perform_inventory (a : Action) (w : World) :
  inventory (page (exec (perform a) w)) = inventory (page w) \/
  loaded a = Some (inventory (page (exec (perform a) w))).
Proof.
  destruct (local a) eqn:Hl.
  - left. apply (@local_run a w Hl).
  - destruct (@network_settled a w Hl) as (_ & _ & (l & Hl' & HP) & _).
    assert (E : inventory (page (exec (perform a) w)) = l)
      by (destruct HP as [-> | ->]; reflexivity).
    rewrite E. destruct Hl' as [->|Hl']; auto.
Qed.

(** X5.  In every state the page can reach from its mount, whatever the
    order of the user's actions and the answers of the backend, the cells of
    the form agree: the page is in edit mode exactly when an item is
    selected; the draft lists the images of the selected item, and none in
    create mode; with no pending file the previews are the resolved images
    of the draft, and with pending files there is one preview per file. *)
Theorem form_cells_agree (tok : option jsstring) (actions : list Action) :
  consistent (page (session actions (initialWorld tok))).
Proof.
  apply session_consistent. repeat split.
Qed.

(** X6.  In every session, each request the page sends carries the token of
    the session as its bearer token, and a session whose storage holds no
    token, or an empty one, sends no request at all. *)
Theorem requests_carry_token (tok : option jsstring) (actions : list Action) :
  Forall (authorized tok) (trace (session actions (initialWorld tok))) /\
  requests (trace (session actions (initialWorld None))) = [] /\
  requests (trace (session actions (initialWorld (Some [])))) = [].
Proof.
  assert (H : forall t,
            Forall (authorized t)
                   (trace (session actions (initialWorld t)))).
  { intro t. destruct (session_trace actions (initialWorld t))
      as (_ & es & -> & H). exact H. }
  split; [apply H|].
  split; apply (@unauthorized_no_request _ _ (or_introl eq_refl) (H None))
    || apply (@unauthorized_no_request _ _ (or_intror eq_refl) (H (Some []))).
Qed.

(** X7.  The inventory on display is never a local guess: at any point of a
    session it is empty, as at the mount, or it is the body of a resolved
    load that one of the session's actions received. *)
Theorem inventory_comes_from_backend (tok : option jsstring)
    (actions : list Action) :
  inventory (page (session actions (initialWorld tok))) = [] \/
  exists a,
    In a actions /\
    loaded a = Some (inventory (page (session actions (initialWorld tok)))).
Proof.
  assert (H : forall w,
            inventory (page (session actions w)) = inventory (page w) \/
            exists a, In a actions /\
                      loaded a = Some (inventory (page (session actions w)))).
  { induction actions as [|a rest IH]; intro w; simpl.
    - left. reflexivity.
    - destruct (IH (exec (perform a) w)) as [E|(b & Hin & Hb)].
      + destruct (perform_inventory a w) as [E'|Hl].
        * left. congruence.
        * right. exists a. split; [left; reflexivity|].
          rewrite <- E in Hl. exact Hl.
      + right. exists b. auto. }
  destruct (H (initialWorld tok)) as [E|E]; [left; exact E|right; exact E].
Qed.

(** X8.  Cancelling discards the draft completely.  After any run of
    actions that stay within the form (opening the modal for a new item or
    for an edit, typing, choosing, picking files), closing the modal leaves
    the page with the modal closed, create mode, no selection, the default
    draft and no preview or pending file; the inventory is untouched and
    nothing has been sent or notified. *)
Theorem close_discards_draft (actions : list Action) (w : World) :
  forallb local actions = true ->
  page (session (actions ++ [Close]) w) =
    {| inventory := inventory (page w); isModalOpen := false;
       isEditMode := false; selectedItem := None; formData := emptyForm;
       imagePreview := []; imageFiles := [] |} /\
  trace (session (actions ++ [Close]) w) = trace w /\
  token (session (actions ++ [Close]) w) = token w.
Proof.
  intro Hlocal. rewrite session_app.
  assert (H : token (session actions w) = token w /\
              trace (session actions w) = trace w /\
              inventory (page (session actions w)) = inventory (page w)).
  { revert w. induction actions as [|a rest IH]; intro w; simpl.
    - auto.
    - simpl in Hlocal. apply andb_prop in Hlocal. destruct Hlocal as [Ha Hr].
      destruct (@local_run a w Ha) as (Ht & Htr & Hinv).
      destruct (IH Hr (exec (perform a) w)) as (Ht' & Htr' & Hinv').
      repeat split; congruence. }
  destruct H as (Ht & Htr & Hinv).
  change (session [Close] (session actions w))
    with (exec handleModalClose (session actions w)).
  split; [|split].
  - rewrite <- Hinv. reflexivity.
  - exact Htr.
  - exact Ht.
Qed.

End Sessions.

(** ** Submit and delete: every way out *)

Lemma message_or_present (error : AxiosError) (r : ErrorResponse)
    (c : code_unit) (m fallback : jsstring) :
  response error = Defined r -> message r = Defined (c :: m) ->
  message_or error fallback = c :: m.
Proof. intros Hr Hm. unfold message_or. rewrite Hr, Hm. reflexivity. Qed.

Lemma message_or_absent (error : AxiosError) (fallback : jsstring) :
  (forall r, response error = Defined r -> present (message r) = false) ->
  message_or error fallback = fallback.
Proof.
  intro H. unfold message_or.
  destruct (response error) as [| |r]; try reflexivity.
  specialize (H r eq_refl).
  destruct (message r) as [| |[|c m]]; try reflexivity; discriminate H.
Qed.

Section Outcomes2.

Variable JSON_stringify : list jsstring -> jsstring.

Local Abbreviation handleSubmit := (Page.handleSubmit JSON_stringify).

(** X9.  A create or update that the backend refuses with anything but a
    401 leaves the page exactly as it was: the modal stays open and the
    draft, the previews and the pending files are kept.  One notification
    is shown: the message of the backend when the answer carries a
    non-empty one, otherwise ['Invalid data provided'] on a 400 and
    ['Operation failed'] on anything else, a failure without any answer
    included.  No reload follows. *)
Theorem submit_failure_keeps_draft fetched (w : World) c tok error :
  validate (page w) = None ->
  token w = Some (c :: tok) ->
  status_is error 401 = false ->
  page (exec (handleSubmit (Rejected error) fetched) w) = page w /\
  trace (exec (handleSubmit (Rejected error) fetched) w) =
    trace w ++
    [PreventDefault;
     submitRequest JSON_stringify (page w) (c :: tok);
     ConsoleError (js "Submit error:") (LogError error);
     ToastError
       (message_or error
          (if status_is error 400 then js "Invalid data provided"
           else js "Operation failed"))] /\
  (forall r m0 m fallback,
     response error = Defined r -> message r = Defined (m0 :: m) ->
     message_or error fallback = m0 :: m) /\
  (forall fallback,
     (forall r, response error = Defined r -> present (message r) = false) ->
     message_or error fallback = fallback).
Proof.
  intros Hv Ht H401. unfold exec.
  rewrite (@handleSubmit_failed JSON_stringify fetched w c tok error Hv Ht).
  rewrite H401. split; [reflexivity|]. split.
  - destruct (status_is error 400); reflexivity.
  - split.
    + intros r m0 m fallback. apply message_or_present.
    + intros fallback. apply message_or_absent.
Qed.

(** X10.  A create or update that the backend accepts closes the modal,
    discards the draft with its previews and pending files, and reloads the
    list: the inventory becomes the body of the reload when it resolves and
    stays what it was when it fails.  Exactly two requests go out, the
    write and then the reload, and the success notification names the kind
    of write. *)
Theorem submit_success_resets_and_reloads u fetched (w : World) c tok :
  validate (page w) = None ->
  token w = Some (c :: tok) ->
  page (exec (handleSubmit (Resolved u) fetched) w) =
    {| inventory := match fetched with
                    | Resolved data => data
                    | Rejected _ => inventory (page w)
                    end;
       isModalOpen := false; isEditMode := false; selectedItem := None;
       formData := emptyForm; imagePreview := []; imageFiles := [] |} /\
  requests (trace (exec (handleSubmit (Resolved u) fetched) w)) =
    requests (trace w) ++
    [submitRequest JSON_stringify (page w) (c :: tok);
     AxiosGet (js "http://localhost:8000/api/admin/inventory")
       [(js "Authorization", js "Bearer " ++ c :: tok);
        (js "Content-Type", js "application/json")]] /\
  (exists rest,
     trace (exec (handleSubmit (Resolved u) fetched) w) =
       trace w ++
       PreventDefault ::
       submitRequest JSON_stringify (page w) (c :: tok) ::
       ToastSuccess
         (match isEditMode (page w), selectedItem (page w) with
          | true, Some _ => js "Item updated successfully"
          | _, _ => js "Item added successfully"
          end) :: rest).
Proof.
  intros Hv Ht. unfold exec.
  rewrite (@handleSubmit_saved JSON_stringify w c tok u fetched Hv Ht).
  rewrite fetchInventory_settle_run.
  destruct fetched as [data|error]; cbn [snd page trace logged].
  - split; [reflexivity|]. split.
    + rewrite requests_app. simpl. rewrite submitRequest_is_request.
      reflexivity.
    + eexists. reflexivity.
  - split; [reflexivity|]. split.
    + rewrite !requests_app. simpl. rewrite submitRequest_is_request.
      destruct (status_is error 401); simpl; rewrite app_nil_r; reflexivity.
    + eexists. rewrite <- app_assoc. reflexivity.
Qed.

(** X11.  Without a token in the session storage (none, or an empty one)
    none of the three network operations contacts the backend: the load, a
    valid submit and a confirmed delete each show the missing-token
    notification, move to the login page and leave the page state as it
    was. *)
Theorem missing_token_redirects saved deleted fetched id (w : World) :
  token w = None \/ token w = Some [] ->
  fetchInventory fetched w =
    (tt, logged w [ToastError (js "Authentication token not found");
                   RouterPush (js "/login")]) /\
  (validate (page w) = None ->
   handleSubmit saved fetched w =
     (tt, logged w [PreventDefault;
                    ToastError (js "Authentication token not found");
                    RouterPush (js "/login")])) /\
  handleDelete id true deleted fetched w =
    (tt, logged w
       [WindowConfirm (js "Are you sure you want to delete this item?");
        ToastError (js "Authentication token not found");
        RouterPush (js "/login")]).
Proof.
  intro Ht. split; [|split].
  - apply fetchInventory_no_token. exact Ht.
  - intro Hv. apply handleSubmit_no_token; assumption.
  - apply handleDelete_no_token. exact Ht.
Qed.

End Outcomes2.

(** X12.  The quiet ways out of a delete.  Declining the confirmation sends
    nothing and notifies nothing.  A delete the backend answers with an
    empty (falsy) body is sent, but neither notified nor followed by a
    reload.  A delete refused with anything but a 401 shows the message of
    the backend, or ['Failed to delete item'] when there is none, and
    leaves the page as it was. *)
Theorem delete_quiet_outcomes id deleted fetched (w : World) :
  handleDelete id false deleted fetched w =
    (tt, logged w
       [WindowConfirm (js "Are you sure you want to delete this item?")]) /\
  (forall c tok,
     token w = Some (c :: tok) ->
     handleDelete id true (Resolved false) fetched w =
       (tt, logged w
          [WindowConfirm (js "Are you sure you want to delete this item?");
           AxiosDelete
             (js "http://localhost:8000/api/admin/inventory/" ++ id)
             [(js "Authorization", js "Bearer " ++ c :: tok);
              (js "Content-Type", js "application/json")]])) /\
  (forall c tok error,
     token w = Some (c :: tok) ->
     status_is error 401 = false ->
     handleDelete id true (Rejected error) fetched w =
       (tt, logged w
          [WindowConfirm (js "Are you sure you want to delete this item?");
           AxiosDelete
             (js "http://localhost:8000/api/admin/inventory/" ++ id)
             [(js "Authorization", js "Bearer " ++ c :: tok);
              (js "Content-Type", js "application/json")];
           ConsoleError (js "Delete error:") (LogError error);
           ConsoleError (js "Error response:") (LogResponse (response error));
           ToastError (message_or error (js "Failed to delete item"))])).
Proof.
  split; [reflexivity|]. split.
  - intros c tok Ht.
    rewrite (@handleDelete_unconfirmed_by_server w id c tok fetched Ht).
    reflexivity.
  - intros c tok error Ht H401.
    rewrite (@handleDelete_failed w id c tok error fetched Ht), H401.
    reflexivity.
Qed.

(** X13.  A delete never touches the form: whatever the confirmation, the
    token and the answers, the modal, the mode, the selected item, the
    draft, the previews and the pending files are what they were, also when
    the deleted item is the one under edit.  The inventory changes only by
    the reload that follows a confirmed delete with a truthy answer. *)
Theorem delete_keeps_form id confirmed deleted fetched (w : World) :
  isModalOpen (page (exec (handleDelete id confirmed deleted fetched) w)) =
    isModalOpen (page w) /\
  isEditMode (page (exec (handleDelete id confirmed deleted fetched) w)) =
    isEditMode (page w) /\
  selectedItem (page (exec (handleDelete id confirmed deleted fetched) w)) =
    selectedItem (page w) /\
  formData (page (exec (handleDelete id confirmed deleted fetched) w)) =
    formData (page w) /\
  imagePreview (page (exec (handleDelete id confirmed deleted fetched) w)) =
    imagePreview (page w) /\
  imageFiles (page (exec (handleDelete id confirmed deleted fetched) w)) =
    imageFiles (page w) /\
  (inventory (page (exec (handleDelete id confirmed deleted fetched) w)) =
     inventory (page w) \/
   confirmed = true /\ deleted = Resolved true /\
   fetched =
     Resolved
       (inventory (page (exec (handleDelete id confirmed deleted fetched) w)))).
Proof.
  unfold exec. destruct confirmed.
  2:{ repeat split; auto. }
  destruct (token w) as [[|c tok]|] eqn:Ht.
  - rewrite handleDelete_no_token by auto. repeat split; auto.
  - destruct deleted as [[|]|error].
    + rewrite (@handleDelete_deleted w id c tok fetched Ht).
      rewrite fetchInventory_settle_run.
      destruct fetched as [data|e]; repeat split; auto.
    + rewrite (@handleDelete_unconfirmed_by_server w id c tok fetched Ht).
      repeat split; auto.
    + rewrite (@handleDelete_failed w id c tok error fetched Ht).
      repeat split; auto.
  - rewrite handleDelete_no_token by auto. repeat split; auto.
Qed.

(** ** What goes into the body *)

Section Payload.

Variable numberToString : number -> jsstring.
Variable JSON_stringify : list jsstring -> jsstring.
Variable createObjectURL : nat -> File -> jsstring.

Local Abbreviation session :=
  (Screen.session numberToString JSON_stringify createObjectURL).

Lemma scalarFields_no_images (fd : Form.t) :
  filter is_images (scalarFields fd) = [].
Proof. reflexivity. Qed.

Lemma blobs_all_images (files : list File) :
  filter is_images (map (fun file => (js "images", Blob file)) files) =
  map (fun file => (js "images", Blob file)) files.
Proof.
  induction files as [|f fs IH]; [reflexivity|].
  simpl. rewrite IH. reflexivity.
Qed.

(** X14.  Pending files always win: whenever at least one file is pending,
    in create mode as in edit mode, the body is the nine scalar fields
    followed by one [images] part per pending file, in the order of the
    files, and the existing image references of the draft are not sent.  A
    create-mode submit that passes validation always has such a file. *)
Theorem pending_files_are_the_images (p : PageState) :
  (imageFiles p <> [] ->
   postData JSON_stringify p =
     scalarFields (formData p) ++
     map (fun file => (js "images", Blob file)) (imageFiles p) /\
   filter is_images (postData JSON_stringify p) =
     map (fun file => (js "images", Blob file)) (imageFiles p)) /\
  (validate p = None -> isEditMode p = false -> imageFiles p <> []).
Proof.
  split.
  - intro Hfiles.
    assert (E : postData JSON_stringify p =
                scalarFields (formData p) ++
                map (fun file => (js "images", Blob file)) (imageFiles p)).
    { unfold postData, imageFields.
      destruct (imageFiles p); [contradiction|reflexivity]. }
    split; [exact E|].
    rewrite E, filter_app, scalarFields_no_images, blobs_all_images.
    reflexivity.
  - intros Hv Hmode Hfiles. unfold validate, image_missing in Hv.
    rewrite Hmode, Hfiles in Hv. simpl in Hv.
    destruct (required_missing (formData p)); discriminate Hv.
Qed.

(** X15.  Editing keeps the images of an item unless new files are picked.
    In any state the page can reach with an item selected and no pending
    file, the body of a submit is the nine scalar fields followed, when the
    item has images (its [images] list, or its legacy [image]), by one
    [images] entry holding the serialised list of exactly those references,
    and the request is a PUT to the address of that item. *)
Theorem edit_resubmits_item_images (tok : option jsstring)
    (actions : list Action) (item : InventoryItem.t) (t : jsstring) :
  selectedItem (page (session actions (initialWorld tok))) = Some item ->
  imageFiles (page (session actions (initialWorld tok))) = [] ->
  postData JSON_stringify (page (session actions (initialWorld tok))) =
    scalarFields (formData (page (session actions (initialWorld tok)))) ++
    match existingImages item with
    | [] => []
    | _ :: _ => [(js "images", Text (JSON_stringify (existingImages item)))]
    end /\
  submitRequest JSON_stringify (page (session actions (initialWorld tok))) t =
    AxiosPut (js "http://localhost:8000/api/admin/inventory/" ++
              InventoryItem._id item)
      (postData JSON_stringify (page (session actions (initialWorld tok))))
      [(js "Authorization", js "Bearer " ++ t)].
Proof.
  intros Hsel Hfiles.
  pose proof (@session_consistent numberToString JSON_stringify
                createObjectURL actions (initialWorld tok)) as H.
  assert (H0 : consistent (page (initialWorld tok))) by (repeat split).
  specialize (H H0). destruct H as [H _]. rewrite Hsel in H.
  destruct H as [Hmode Himgs].
  split.
  - unfold postData, imageFields. rewrite Hfiles, Hmode, Himgs.
    destruct (existingImages item); reflexivity.
  - unfold submitRequest. rewrite Hmode, Hsel. reflexivity.
Qed.

End Payload.

(** ** Numbers at the edge of the rules *)

Lemma Number_blank (s : jsstring) : trim s = [] -> Number s = zero.
Proof. intro H. unfold Number. rewrite H. reflexivity. Qed.

Lemma trimStart_snoc (l : jsstring) (c : code_unit) :
  is_white_space c = false -> exists l', trimStart (l ++ [c]) = l' ++ [c].
Proof.
  intro Hc. induction l as [|x l IH]; simpl.
  - rewrite Hc. exists []. reflexivity.
  - destruct (is_white_space x); [exact IH|].
    exists (x :: l). reflexivity.
Qed.

(** [trim] keeps a first unit that is not white space. *)
Lemma trim_keeps_head (c : code_unit) (rest : jsstring) :
  is_white_space c = false -> exists t, trim (c :: rest) = c :: t.
Proof.
  intro Hc. unfold trim. simpl trimStart. rewrite Hc.
  unfold trimEnd. simpl rev.
  destruct (trimStart_snoc (rev rest) c Hc) as (l' & ->).
  rewrite rev_unit. eauto.
Qed.

Lemma binary_round_aux_negative (mx ex : Z) (lx : location) :
  isNaN (binary_round_aux prec emax true mx ex lx) = true \/
  le (binary_round_aux prec emax true mx ex lx) zero = true.
Proof.
  unfold binary_round_aux.
  destruct (shr_fexp prec emax mx ex lx) as [mrs' e'].
  destruct (shr_fexp prec emax _ e' loc_Exact) as [mrs'' e''].
  destruct (shr_m mrs'') as [|m|m].
  - right. reflexivity.
  - destruct (Z.leb e'' (emax - prec)); right; reflexivity.
  - left. reflexivity.
Qed.

Lemma round_decimal_negative (m : N) (e : Z) :
  isNaN (round_decimal true m e) = true \/
  le (round_decimal true m e) zero = true.
Proof.
  unfold round_decimal. destruct m as [|p]; [right; reflexivity|].
  destruct e as [|k|k].
  - unfold binary_round. destruct (shl_align _ _ _) as [mz ez].
    apply binary_round_aux_negative.
  - unfold binary_round. destruct (shl_align _ _ _) as [mz ez].
    apply binary_round_aux_negative.
  - unfold SFdiv. destruct (SFdiv_core_binary _ _ _ _ _ _) as [[mz ez] lz].
    apply binary_round_aux_negative.
Qed.

(** A text that starts with a minus sign is not above zero. *)
Lemma Number_minus (rest : jsstring) :
  isNaN (Number (ch "-" :: rest)) = true \/
  le (Number (ch "-" :: rest)) zero = true.
Proof.
  destruct (@trim_keeps_head (ch "-") rest eq_refl) as (t & Ht).
  unfold Number. rewrite Ht.
  assert (Hr : parse_radix (ch "-" :: t) = None).
  { unfold parse_radix. destruct t as [|p0 [|b body]]; try reflexivity.
    destruct ((p0 =? ch "x") || (p0 =? ch "X"))%N; [reflexivity|].
    destruct ((p0 =? ch "o") || (p0 =? ch "O"))%N; [reflexivity|].
    destruct ((p0 =? ch "b") || (p0 =? ch "B"))%N; reflexivity. }
  rewrite Hr. unfold parse_decimal.
  change (ch "-" =? ch "-")%N with true. cbv iota beta.
  destruct (list_eq_dec N.eq_dec t (js "Infinity")); [right; reflexivity|].
  destruct (parse_unsigned_decimal t) as [[m e]|]; [|left; reflexivity].
  apply round_decimal_negative.
Qed.

(** X16.  Texts of white space only count as zero.  For a draft that passes
    the required-fields and image tests, a price made of white space alone
    is refused with the price message, while a stock made of white space
    alone, next to a price that passes, is accepted and the submit goes on
    to the backend. *)
Theorem blank_numbers_count_as_zero (p : PageState) :
  required_missing (formData p) = false ->
  image_missing p = false ->
  (trim (Form.price (formData p)) = [] ->
   parsedPrice p = zero /\ validate p = Some PricePositive) /\
  (trim (Form.stock (formData p)) = [] ->
   le (parsedPrice p) zero = false ->
   parsedStock p = zero /\ validate p = None).
Proof.
  intros Hreq Himg. split.
  - intro Hblank.
    assert (E : parsedPrice p = zero) by (apply Number_blank; exact Hblank).
    split; [exact E|]. unfold validate. rewrite Hreq, Himg, E. reflexivity.
  - intros Hblank Hprice.
    assert (E : parsedStock p = zero) by (apply Number_blank; exact Hblank).
    split; [exact E|]. unfold validate.
    rewrite Hreq, Himg, Hprice, E. reflexivity.
Qed.

(** X17.  A price written with a leading minus sign never passes as a
    number: for a draft that passes the required-fields and image tests,
    either the submit is refused with the price message, or the text is not
    a number at all ([NaN]). *)
Theorem negative_price_never_accepted (p : PageState) (rest : jsstring) :
  Form.price (formData p) = ch "-" :: rest ->
  required_missing (formData p) = false ->
  image_missing p = false ->
  validate p = Some PricePositive \/ isNaN (parsedPrice p) = true.
Proof.
  intros Hprice Hreq Himg.
  destruct (Number_minus rest) as [Hnan|Hle].
  - right. unfold parsedPrice. rewrite Hprice. exact Hnan.
  - left. unfold validate, parsedPrice. rewrite Hreq, Himg, Hprice, Hle.
    reflexivity.
Qed.

(** ** The session gate *)

Section Gate.

Variable JSON_parse : jsstring -> option User.

Local Abbreviation sessionGate := (Screen.sessionGate JSON_parse).

(** X18.  Only an administrator gets past the gate.  Without a stored user
    record the page moves to the login page; with a record whose role is
    not ['admin'] it shows ['Unauthorized access'] and moves to the login
    page; in both cases the [user] cell stays empty and the backend is not
    contacted.  With an administrator's record the cell holds that record
    and the inventory is loaded.  Whatever the storage holds, a user that
    ends up in the cell has the role ['admin']. *)
Theorem gate_admits_admin_only (storedUser : option jsstring)
    (fetched : HttpResult (list InventoryItem.t)) (w : World) :
  (storedUser = None \/ storedUser = Some [] ->
   sessionGate storedUser fetched w =
     (None, logged w [RouterPush (js "/login")])) /\
  (forall c text u,
     storedUser = Some (c :: text) -> JSON_parse (c :: text) = Some u ->
     role u <> js "admin" ->
     sessionGate storedUser fetched w =
       (None, logged w [ToastError (js "Unauthorized access");
                        RouterPush (js "/login")])) /\
  (forall c text u,
     storedUser = Some (c :: text) -> JSON_parse (c :: text) = Some u ->
     role u = js "admin" ->
     sessionGate storedUser fetched w =
       (Some u, exec (fetchInventory fetched) w)) /\
  (forall u, fst (sessionGate storedUser fetched w) = Some u ->
             role u = js "admin") /\
  (fst (sessionGate storedUser fetched w) = None ->
   requests (trace (snd (sessionGate storedUser fetched w))) =
   requests (trace w)).
Proof.
  split; [|split; [|split; [|split]]].
  - intros [-> | ->]; reflexivity.
  - intros c text u -> Hparse Hrole. unfold Screen.sessionGate.
    rewrite Hparse.
    destruct (list_eq_dec N.eq_dec (role u) (js "admin")) as [E|_];
      [contradiction|].
    unfold toast_error, router_push, bind, emit, ret, logged; simpl.
    rewrite <- app_assoc. reflexivity.
  - intros c text u -> Hparse Hrole. unfold Screen.sessionGate.
    rewrite Hparse.
    destruct (list_eq_dec N.eq_dec (role u) (js "admin")) as [_|E];
      [|contradiction].
    unfold bind, ret, exec.
    destruct (fetchInventory fetched w) as [[] w']. reflexivity.
  - intros u. unfold Screen.sessionGate.
    destruct storedUser as [[|c text]|]; try discriminate.
    destruct (JSON_parse (c :: text)) as [v|]; try discriminate.
    destruct (list_eq_dec N.eq_dec (role v) (js "admin")) as [E|_].
    + unfold bind, ret.
      destruct (fetchInventory fetched w) as [[] w']. simpl.
      intro H; injection H as <-. exact E.
    + discriminate.
  - unfold Screen.sessionGate.
    destruct storedUser as [[|c text]|].
    + intros _. simpl. rewrite requests_app. apply app_nil_r.
    + destruct (JSON_parse (c :: text)) as [v|]; [|reflexivity].
      destruct (list_eq_dec N.eq_dec (role v) (js "admin")) as [E|_].
      * unfold bind, ret.
        destruct (fetchInventory fetched w) as [[] w']. discriminate.
      * intros _. simpl. rewrite !requests_app. simpl.
        rewrite !app_nil_r. reflexivity.
    + intros _. simpl. rewrite requests_app. apply app_nil_r.
Qed.

End Gate.

(** ** Picking files again, and opening an edit over a draft *)

Section Picking.

Variable numberToString : number -> jsstring.
Variable JSON_stringify : list jsstring -> jsstring.
Variable createObjectURL : nat -> File -> jsstring.

Local Abbreviation handleImageChange :=
  (Page.handleImageChange createObjectURL).
Local Abbreviation perform :=
  (Screen.perform numberToString JSON_stringify createObjectURL).
Local Abbreviation session :=
  (Screen.session numberToString JSON_stringify createObjectURL).

Lemma handleImageChange_run (f : File) (fs : list File) (w : World) :
  exec (handleImageChange (Defined (f :: fs))) w =
    {| page :=
         {| inventory := inventory (page w);
            isModalOpen := isModalOpen (page w);
            isEditMode := isEditMode (page w);
            selectedItem := selectedItem (page w);
            formData := formData (page w);
            imagePreview :=
              map (fun '(i, x) => createObjectURL i x)
                  (combine (seq (blobs w) (List.length (f :: fs))) (f :: fs));
            imageFiles := f :: fs |};
       token := token w; trace := trace w;
       blobs := blobs w + List.length (f :: fs) |}.
Proof.
  unfold exec, Page.handleImageChange, bind, setImageFiles, setImagePreview,
    update.
  rewrite createPreviews_run. reflexivity.
Qed.

(** X19.  A second selection replaces the first: the pending files are
    those of the second selection alone, each with a preview of its own, in
    order.  The previews are new object URLs, numbered after those handed
    out for the first selection, whose URLs are not given back: the count of
    object URLs held grows by the size of each selection. *)
Theorem second_selection_replaces_first (f1 f2 : File) (fs1 fs2 : list File)
    (w : World) :
  imageFiles
    (page (exec (handleImageChange (Defined (f2 :: fs2)))
                (exec (handleImageChange (Defined (f1 :: fs1))) w))) =
    f2 :: fs2 /\
  (forall i,
     nth_error
       (imagePreview
          (page (exec (handleImageChange (Defined (f2 :: fs2)))
                      (exec (handleImageChange (Defined (f1 :: fs1))) w))))
       i =
     option_map
       (createObjectURL (blobs w + List.length (f1 :: fs1) + i))
       (nth_error (f2 :: fs2) i)) /\
  blobs (exec (handleImageChange (Defined (f2 :: fs2)))
              (exec (handleImageChange (Defined (f1 :: fs1))) w)) =
    blobs w + List.length (f1 :: fs1) + List.length (f2 :: fs2).
Proof.
  rewrite (handleImageChange_run f1 fs1 w).
  rewrite handleImageChange_run.
  cbn [page imageFiles imagePreview blobs].
  split; [reflexivity|]. split; [|reflexivity].
  intro i. apply previews_nth.
Qed.

Lemma local_session_run (actions : list Action) (w : World) :
  forallb local actions = true ->
  token (session actions w) = token w /\
  trace (session actions w) = trace w /\
  inventory (page (session actions w)) = inventory (page w).
Proof.
  revert w. induction actions as [|a rest IH]; intros w Hlocal; simpl.
  - auto.
  - simpl in Hlocal. apply andb_prop in Hlocal. destruct Hlocal as [Ha Hr].
    destruct (@local_run numberToString JSON_stringify createObjectURL
                a w Ha) as (Ht & Htr & Hinv).
    destruct (IH (exec (perform a) w) Hr) as (Ht' & Htr' & Hinv').
    repeat split; congruence.
Qed.

(** X20.  Opening an edit overrides whatever the form held.  After any run
    of actions that stay within the form, editing an item gives the same
    page as editing it straight away: the draft is the item's (with an
    empty [brand] or [packSize] when the item has none), the previews are
    the item's resolved images, and files picked before are dropped.
    Nothing is sent. *)
Theorem edit_overrides_form (actions : list Action) (item : InventoryItem.t)
    (w : World) :
  forallb local actions = true ->
  page (session (actions ++ [Edit item]) w) =
    page (exec (handleEdit numberToString item) w) /\
  imageFiles (page (session (actions ++ [Edit item]) w)) = [] /\
  Form.brand (formData (page (session (actions ++ [Edit item]) w))) =
    match InventoryItem.brand item with
    | Defined b => b
    | _ => []
    end /\
  trace (session (actions ++ [Edit item]) w) = trace w.
Proof.
  intro Hlocal.
  destruct (local_session_run actions w Hlocal) as (_ & Htr & Hinv).
  rewrite (@session_app numberToString JSON_stringify createObjectURL).
  change (session [Edit item] (session actions w))
    with (exec (handleEdit numberToString item) (session actions w)).
  split; [|split; [|split]].
  - change (page (exec (handleEdit numberToString item) (session actions w)))
      with (with_inventory (inventory (page (session actions w)))
              (page (exec (handleEdit numberToString item) w))).
    rewrite Hinv. reflexivity.
  - reflexivity.
  - cbn. destruct (InventoryItem.brand item) as [| |[|c b]]; reflexivity.
  - exact Htr.
Qed.

End Picking.

(* ===================================================================== *)
(** * The further properties on concrete runs                            *)
(* ===================================================================== *)

(** Drafting a new item and closing the modal. *)
Lemma close_discards_draft_witness :
  page (Screen.session toText stringify objectURL (drafting ++ [Close])
          (initialWorld (Some (js "secret")))) = initialPage /\
  trace (Screen.session toText stringify objectURL (drafting ++ [Close])
           (initialWorld (Some (js "secret")))) = [].
Proof.
  assert (H : forallb local drafting = true) by reflexivity.
  destruct (@close_discards_draft toText stringify objectURL drafting
              (initialWorld (Some (js "secret"))) H) as (Hpage & Htrace & _).
  split; [exact Hpage|exact Htrace].
Defined.

(** A 400 with a message, on the update of [soap]. *)
Lemma submit_failure_keeps_draft_witness :
  page (exec (Page.handleSubmit stringify
                (Rejected (badRequest (Defined (js "Name already used"))))
                (Resolved []))
             (editing (draft "skin_care" "12.5" "3"))) =
    page (editing (draft "skin_care" "12.5" "3")) /\
  trace (exec (Page.handleSubmit stringify
                 (Rejected (badRequest (Defined (js "Name already used"))))
                 (Resolved []))
              (editing (draft "skin_care" "12.5" "3"))) =
    [PreventDefault;
     AxiosPut (js "http://localhost:8000/api/admin/inventory/42")
       (scalarFields (draft "skin_care" "12.5" "3"))
       [(js "Authorization", js "Bearer secret")];
     ConsoleError (js "Submit error:")
       (LogError (badRequest (Defined (js "Name already used"))));
     ToastError (js "Name already used")].
Proof.
  assert (Hv : validate (page (editing (draft "skin_care" "12.5" "3"))) = None)
    by (vm_compute; reflexivity).
  assert (Ht : token (editing (draft "skin_care" "12.5" "3")) =
               Some (ch "s" :: js "ecret")) by reflexivity.
  assert (H401 : status_is (badRequest (Defined (js "Name already used"))) 401
                 = false) by reflexivity.
  destruct (@submit_failure_keeps_draft stringify (Resolved [])
              (editing (draft "skin_care" "12.5" "3")) (ch "s") (js "ecret")
              (badRequest (Defined (js "Name already used"))) Hv Ht H401)
    as (Hpage & Htrace & _).
  split; [exact Hpage|exact Htrace].
Defined.

(** A successful update of [soap], with a reload that brings two items. *)
Lemma submit_success_resets_and_reloads_witness :
  page (exec (Page.handleSubmit stringify (Resolved tt)
                (Resolved [soap; legacySoap]))
             (editing (draft "skin_care" "12.5" "3"))) =
    {| inventory := [soap; legacySoap]; isModalOpen := false;
       isEditMode := false; selectedItem := None; formData := emptyForm;
       imagePreview := []; imageFiles := [] |}.
Proof.
  assert (Hv : validate (page (editing (draft "skin_care" "12.5" "3"))) = None)
    by (vm_compute; reflexivity).
  assert (Ht : token (editing (draft "skin_care" "12.5" "3")) =
               Some (ch "s" :: js "ecret")) by reflexivity.
  destruct (@submit_success_resets_and_reloads stringify tt
              (Resolved [soap; legacySoap])
              (editing (draft "skin_care" "12.5" "3")) (ch "s") (js "ecret")
              Hv Ht) as (Hpage & _).
  exact Hpage.
Defined.

(** A submit after the token is gone. *)
Lemma missing_token_redirects_witness :
  Page.handleSubmit stringify (Resolved tt) (Resolved []) loggedOut =
    (tt, logged loggedOut
           [PreventDefault;
            ToastError (js "Authentication token not found");
            RouterPush (js "/login")]).
Proof.
  assert (Ht : token loggedOut = None \/ token loggedOut = Some [])
    by (left; reflexivity).
  assert (Hv : validate (page loggedOut) = None) by (vm_compute; reflexivity).
  destruct (@missing_token_redirects stringify (Resolved tt) (Resolved true)
              (Resolved []) (js "42") loggedOut Ht) as (_ & Hsubmit & _).
  exact (Hsubmit Hv).
Defined.

(** A delete the server refuses with a 500 and no message. *)
Lemma delete_quiet_outcomes_witness :
  handleDelete (js "42") true (Rejected (serverError Undefined)) (Resolved [])
      (editing (draft "skin_care" "12.5" "3")) =
    (tt, logged (editing (draft "skin_care" "12.5" "3"))
       [WindowConfirm (js "Are you sure you want to delete this item?");
        AxiosDelete (js "http://localhost:8000/api/admin/inventory/42")
          [(js "Authorization", js "Bearer secret");
           (js "Content-Type", js "application/json")];
        ConsoleError (js "Delete error:") (LogError (serverError Undefined));
        ConsoleError (js "Error response:")
          (LogResponse (response (serverError Undefined)));
        ToastError (js "Failed to delete item")]).
Proof.
  destruct (delete_quiet_outcomes (js "42")
              (Rejected (serverError Undefined)) (Resolved [])
              (editing (draft "skin_care" "12.5" "3"))) as (_ & _ & Hfail).
  apply (Hfail (ch "s") (js "ecret") (serverError Undefined));
    reflexivity.
Defined.

(** A new item with two files. *)
Lemma pending_files_are_the_images_witness :
  filter is_images
    (postData stringify
       (page (creating (draft "skin_care" "12.5" "3") [scan; photo]))) =
    [(js "images", Blob scan); (js "images", Blob photo)].
Proof.
  destruct (pending_files_are_the_images stringify
              (page (creating (draft "skin_care" "12.5" "3") [scan; photo])))
    as (Hfiles & _).
  assert (Hne : imageFiles
                  (page (creating (draft "skin_care" "12.5" "3")
                                  [scan; photo])) <> [])
    by discriminate.
  destruct (Hfiles Hne) as (_ & Himages).
  exact Himages.
Defined.

(** Retyping the name of [soap] and submitting sends its two images back. *)
Lemma edit_resubmits_item_images_witness :
  postData stringify
    (page (Screen.session toText stringify objectURL retyping
             (initialWorld (Some (js "secret"))))) =
    scalarFields
      (formData
         (page (Screen.session toText stringify objectURL retyping
                  (initialWorld (Some (js "secret")))))) ++
    [(js "images",
      Text (stringify [js "uploads/a.png"; js "uploads/b.png"]))].
Proof.
  assert (Hsel : selectedItem
                   (page (Screen.session toText stringify objectURL retyping
                            (initialWorld (Some (js "secret"))))) = Some soap)
    by reflexivity.
  assert (Hfiles : imageFiles
                     (page (Screen.session toText stringify objectURL retyping
                              (initialWorld (Some (js "secret"))))) = [])
    by reflexivity.
  destruct (@edit_resubmits_item_images toText stringify objectURL
              (Some (js "secret")) retyping soap (js "secret") Hsel Hfiles)
    as (Hbody & _).
  exact Hbody.
Defined.

(** A price and a stock of one space each. *)
Lemma blank_numbers_count_as_zero_witness :
  validate (page (editing (draft "skin_care" " " "5"))) = Some PricePositive /\
  validate (page (editing (draft "skin_care" "5" " "))) = None.
Proof.
  assert (H1 : required_missing
                 (formData (page (editing (draft "skin_care" " " "5"))))
               = false) by (vm_compute; reflexivity).
  assert (H2 : image_missing (page (editing (draft "skin_care" " " "5")))
               = false) by reflexivity.
  destruct (blank_numbers_count_as_zero
              (page (editing (draft "skin_care" " " "5"))) H1 H2)
    as (Hprice & _).
  assert (H3 : required_missing
                 (formData (page (editing (draft "skin_care" "5" " "))))
               = false) by (vm_compute; reflexivity).
  assert (H4 : image_missing (page (editing (draft "skin_care" "5" " ")))
               = false) by reflexivity.
  destruct (blank_numbers_count_as_zero
              (page (editing (draft "skin_care" "5" " "))) H3 H4)
    as (_ & Hstock).
  split.
  - apply Hprice. vm_compute. reflexivity.
  - apply Hstock; vm_compute; reflexivity.
Defined.

(** A price of [-4.5]. *)
Lemma negative_price_never_accepted_witness :
  validate (page (editing (draft "skin_care" "-4.5" "5"))) =
    Some PricePositive \/
  isNaN (parsedPrice (page (editing (draft "skin_care" "-4.5" "5")))) = true.
Proof.
  apply (@negative_price_never_accepted
           (page (editing (draft "skin_care" "-4.5" "5"))) (js "4.5"));
    vm_compute; reflexivity.
Defined.

(** A customer's record in the storage. *)
Lemma gate_admits_admin_only_witness :
  Screen.sessionGate parseUser (Some (js "customer")) (Resolved [soap])
      (initialWorld (Some (js "secret"))) =
    (None, logged (initialWorld (Some (js "secret")))
             [ToastError (js "Unauthorized access");
              RouterPush (js "/login")]) /\
  Screen.sessionGate parseUser (Some (js "admin")) (Resolved [soap])
      (initialWorld (Some (js "secret"))) =
    (Some admin,
     exec (fetchInventory (Resolved [soap]))
          (initialWorld (Some (js "secret")))).
Proof.
  split.
  - destruct (gate_admits_admin_only parseUser (Some (js "customer"))
                (Resolved [soap]) (initialWorld (Some (js "secret"))))
      as (_ & Hother & _).
    apply (Hother (ch "c") (js "ustomer") customer);
      [reflexivity|reflexivity|vm_compute; discriminate].
  - destruct (gate_admits_admin_only parseUser (Some (js "admin"))
                (Resolved [soap]) (initialWorld (Some (js "secret"))))
      as (_ & _ & Hadmin & _).
    apply (Hadmin (ch "a") (js "dmin") admin); reflexivity.
Defined.

(** Opening [legacySoap] over a draft with a picked file. *)
Lemma edit_overrides_form_witness :
  imageFiles
    (page (Screen.session toText stringify objectURL
             (drafting ++ [Edit legacySoap])
             (initialWorld (Some (js "secret"))))) = [] /\
  Form.brand
    (formData
       (page (Screen.session toText stringify objectURL
                (drafting ++ [Edit legacySoap])
                (initialWorld (Some (js "secret")))))) = [].
Proof.
  assert (H : forallb local drafting = true) by reflexivity.
  destruct (@edit_overrides_form toText stringify objectURL drafting
              legacySoap (initialWorld (Some (js "secret"))) H)
    as (_ & Hfiles & Hbrand & _).
  split; [exact Hfiles|exact Hbrand].
Defined.

(* ===================================================================== *)
(** * One write per submit, and the untouched form                       *)
(* ===================================================================== *)

Section Writes.

Variable JSON_stringify : list jsstring -> jsstring.

Local Abbreviation handleSubmit := (Page.handleSubmit JSON_stringify).

(** X21.  A submit never writes twice.  Whatever the draft, the session and
    the answers, a run of [handleSubmit] sends either nothing (a rule
    stopped it, or the token is missing), or the one create or update
    request, or that request followed by the reload of the list; the reload
    is sent only after the write has been accepted. *)
Theorem submit_writes_once saved fetched (w : World) :
  exists es,
    trace (exec (handleSubmit saved fetched) w) = trace w ++ es /\
    (requests es = [] \/
     exists c tok,
       token w = Some (c :: tok) /\ validate (page w) = None /\
       (requests es = [submitRequest JSON_stringify (page w) (c :: tok)] \/
        requests es = [submitRequest JSON_stringify (page w) (c :: tok);
                       AxiosGet api (json_headers (c :: tok))] /\
        exists u, saved = Resolved u)).
Proof.
  unfold exec.
  destruct (validate (page w)) as [r|] eqn:Hv.
  { rewrite (handleSubmit_rejected JSON_stringify saved fetched w Hv).
    eexists. split; [reflexivity|]. left. reflexivity. }
  destruct (token w) as [[|c tok]|] eqn:Ht.
  - rewrite handleSubmit_no_token by auto.
    eexists. split; [reflexivity|]. left. reflexivity.
  - destruct saved as [u|error].
    + rewrite (@handleSubmit_saved JSON_stringify w c tok u fetched Hv Ht).
      rewrite fetchInventory_settle_run.
      destruct fetched as [data|e]; cbn [snd trace logged].
      * eexists. split; [reflexivity|]. right. exists c, tok.
        split; [reflexivity|]. split; [reflexivity|]. right.
        split; [|eauto]. simpl. rewrite submitRequest_is_request.
        reflexivity.
      * eexists. split; [rewrite <- app_assoc; reflexivity|].
        right. exists c, tok.
        split; [reflexivity|]. split; [reflexivity|]. right.
        split; [|eauto]. rewrite requests_app. simpl.
        rewrite submitRequest_is_request.
        destruct (status_is e 401); reflexivity.
    + rewrite (@handleSubmit_failed JSON_stringify fetched w c tok error Hv Ht).
      eexists. split; [reflexivity|]. right. exists c, tok.
      split; [reflexivity|]. split; [reflexivity|]. left.
      rewrite requests_app. simpl. rewrite submitRequest_is_request.
      destruct (status_is error 401); [|destruct (status_is error 400)];
        reflexivity.
  - rewrite handleSubmit_no_token by auto.
    eexists. split; [reflexivity|]. left. reflexivity.
Qed.

(** X22.  The form opened by "Add New Item" cannot be submitted as it is:
    from any state, opening it and submitting at once is refused with the
    required-fields message, with nothing sent, and the modal stays open on
    the empty draft in create mode. *)
Theorem untouched_form_is_refused saved fetched (w : World) :
  trace (exec (handleSubmit saved fetched) (exec handleAddNew w)) =
    trace w ++
    [PreventDefault;
     ToastError
       (js "Please fill in all required fields (Pack Size is optional).")] /\
  page (exec (handleSubmit saved fetched) (exec handleAddNew w)) =
    {| inventory := inventory (page w); isModalOpen := true;
       isEditMode := false; selectedItem := None; formData := emptyForm;
       imagePreview := []; imageFiles := [] |}.
Proof.
  assert (Hv : validate (page (exec handleAddNew w)) = Some RequiredFields)
    by reflexivity.
  unfold exec at 1 3.
  rewrite (handleSubmit_rejected JSON_stringify saved fetched
             (exec handleAddNew w) Hv).
  split; reflexivity.
Qed.

End Writes.
